(** * Metadata Creator (app.py): a shallow embedding and its properties

    The development follows the three functional components of [app.py]:
    the File Sampler ([parse_file_content]), the Model Gateway
    ([call_databricks_model]) and the Conversation Store as it is threaded
    through the two Dash callbacks ([handle_file_upload], [send_message]),
    together with the module start-up code that loads the system prompt.

    Python values are modelled as follows.
    - [str]   : a list of Unicode code points ([list N]);
    - [bytes] : a list of [Byte.byte];
    - a message dict : a finite map from keys to values that are [None]
      or a [str], so that [msg['role']] on a dict without that key raises
      [KeyError]; the [message] of a choice and the [content] of a message
      are optional, as the SDK declares them;
    - an exception : its class name and the text [str(e)] produces;
    - [try … except Exception as e] : [try_except];
    - the calls into pandas, json, base64 and the Databricks SDK are the
      fields of a record [Lib], every property is proved for every such
      library; what [json.dumps] prints is also given as a function,
      [PyJson.dumps], for the properties that depend on the text printed;
    - a file read in text mode has its line ends translated to "\n";
    - the requests sent to the serving endpoint and the files read are
      logged in a [World], so that "no request was sent" and "the file is
      read once" can be stated.

    Left out: the [print] calls, the styling and layout of the page, the
    construction of the Dash application (taken to succeed), and
    exceptions that are not instances of [Exception], which no [except]
    clause of the program catches. *)

From Stdlib Require Import ZArith NArith Strings.Ascii Strings.String Strings.Byte.
From Stdlib Require DecimalPos DecimalFacts.
From stdpp Require Import base option list strings gmap.

Set Default Proof Using "Type".
Set Warnings "-register-all".
Open Scope list_scope.

(** ** Python strings *)

Module Str.

Abbreviation str := (list N).
Abbreviation bytes := (list Byte.byte).

(** The code points of a literal of the source. *)
Definition lit (s : string) : str :=
  List.map N_of_ascii (list_ascii_of_string s).

Definition chr (n : N) : str := [n].

(** The escape [\n] of a Python literal. *)
Definition nl : str := chr 10.

(** [s.endswith(suffix)]. *)
Definition endswith (s suf : str) : bool :=
  bool_decide (drop (length s - length suf) s = suf).

(** [s.endswith((a, b))]: any of a tuple of suffixes. *)
Definition endswith_any (s : str) (sufs : list str) : bool :=
  existsb (endswith s) sufs.

(** [s.split(sep)] for a separator of one character: every occurrence
    splits, the result has one more part than there are separators. *)
Fixpoint split (sep : N) (s : str) : list str :=
  match s with
  | [] => [[]]
  | c :: s' =>
      if N.eqb c sep then [] :: split sep s'
      else match split sep s' with
           | [] => [[c]]
           | part :: parts => (c :: part) :: parts
           end
  end.

(** [sep.join(parts)]. *)
Fixpoint join (sep : str) (parts : list str) : str :=
  match parts with
  | [] => []
  | [p] => p
  | p :: ps => p ++ sep ++ join sep ps
  end.

(** [c.isspace()] as CPython decides it: the ASCII white space of
    [_Py_ascii_whitespace] and the code points of
    [_PyUnicode_IsWhitespace]. *)
Definition isspace (c : N) : bool :=
  ((9 <=? c) && (c <=? 13) || (28 <=? c) && (c <=? 32)
   || (c =? 133) || (c =? 160) || (c =? 5760)
   || (8192 <=? c) && (c <=? 8202)
   || (c =? 8232) || (c =? 8233) || (c =? 8239) || (c =? 8287)
   || (c =? 12288))%N.

Fixpoint lstrip (s : str) : str :=
  match s with
  | [] => []
  | c :: s' => if isspace c then lstrip s' else s
  end.

Definition rstrip (s : str) : str := rev (lstrip (rev s)).

(** [s.strip()]. *)
Definition strip (s : str) : str := rstrip (lstrip s).

(** What reading a file in text mode makes of the decoded text
    (universal newlines): "\r\n" and a lone "\r" become "\n". *)
Fixpoint universal_newlines (s : str) : str :=
  match s with
  | [] => []
  | c :: s' =>
      if N.eqb c 13 then
        10%N :: match s' with
                | d :: s'' =>
                    if N.eqb d 10 then universal_newlines s''
                    else universal_newlines s'
                | [] => []
                end
      else c :: universal_newlines s'
  end.

(** Truth value of a [str]: the empty string is false. *)
Definition truthy (s : str) : bool :=
  match s with [] => false | _ :: _ => true end.

(** Truth value of an [Optional[str]]: [None] and [''] are false. *)
Definition truthy_opt (o : option str) : bool :=
  match o with None => false | Some s => truthy s end.

(** [sub in s]. *)
Definition contains (sub s : str) : Prop :=
  ∃ before after, s = before ++ sub ++ after.

End Str.
Import Str.

Arguments lit : simpl never.
Arguments nl : simpl never.

(** ** Values *)

(** What a dict entry, an attribute of the SDK's messages or the result
    of the gateway holds: [None] or a [str]. *)
Inductive value :=
| VNone
| VStr (s : str).

#[global] Instance value_eq_dec : EqDecision value.
Proof. solve_decision. Defined.

(** ** Exceptions and results *)

(** An instance of [Exception]: its class and the text of [str(e)]. *)
Record exn := Exn { exn_class : string; exn_str : str }.

Inductive Res (A : Type) : Type :=
| Ok (a : A)
| Raise (e : exn).
Arguments Ok {A} a.
Arguments Raise {A} e.

(** Sequencing of statements that may raise: the first exception ends the
    block. *)
Definition Res_bind {A B} (r : Res A) (k : A → Res B) : Res B :=
  match r with
  | Ok a => k a
  | Raise e => Raise e
  end.

Declare Scope res_scope.
Delimit Scope res_scope with res.
Notation "'let?' x ':=' c 'in' k" := (Res_bind c (λ x, k))
  (at level 10, x name, c at level 100, k at level 200) : res_scope.
Notation "'let?' ' p ':=' c 'in' k" := (Res_bind c (λ p, k))
  (at level 10, p pattern, c at level 100, k at level 200) : res_scope.

(** ** The world a call runs in *)

Inductive ChatMessageRole := SYSTEM | USER | ASSISTANT.

(** [ChatMessage(role=…, content=…)]; the SDK types [content] as
    [Optional[str]]. *)
Record ChatMessage := { cm_role : ChatMessageRole; cm_content : value }.

(** The keyword arguments of [w.serving_endpoints.query]. *)
Record Request := {
  req_name : str;
  req_messages : list ChatMessage;
  req_max_tokens : Z
}.

(** What a Python attribute holds when the code asks with [hasattr]. *)
Inductive attr (A : Type) : Type :=
| Absent
| IsNone
| Value (a : A).
Arguments Absent {A}.
Arguments IsNone {A}.
Arguments Value {A} a.

(** An element of [response.choices]; the SDK types [message] as
    [Optional[ChatMessage]]. *)
Record Choice := { message : option ChatMessage }.

Record Response := { choices : attr (list Choice) }.

(** The observable effects: the requests sent to the serving endpoint and
    the files read, oldest first. *)
Record World := {
  sent : list Request;
  reads : list str
}.

(** A Python computation: it may raise, and it changes the world. *)
Definition Py (A : Type) : Type := World → Res A * World.

Definition ret {A} (a : A) : Py A := λ w, (Ok a, w).

Definition bind {A B} (m : Py A) (k : A → Py B) : Py B := λ w,
  match m w with
  | (Ok a, w') => k a w'
  | (Raise e, w') => (Raise e, w')
  end.

Declare Scope py_scope.
Delimit Scope py_scope with py.
Notation "'let*' x ':=' c 'in' k" := (bind c (λ x, k))
  (at level 10, x name, c at level 100, k at level 200) : py_scope.

Definition raise {A} (e : exn) : Py A := λ w, (Raise e, w).

Definition lift {A} (r : Res A) : Py A := λ w, (r, w).

(** [try: body  except Exception as e: handler e]. *)
Definition try_except {A} (body : Py A) (handler : exn → Py A) : Py A :=
  λ w, match body w with
       | (Ok a, w') => (Ok a, w')
       | (Raise e, w') => handler e w'
       end.

(** The same for a computation without effects. *)
Definition try_except_res {A} (body : Res A) (handler : exn → Res A) : Res A :=
  match body with
  | Ok a => Ok a
  | Raise e => handler e
  end.

(** [for x in xs: body], threading the variables the body assigns. *)
Fixpoint for_in {A S} (xs : list A) (body : A → S → Py S) (s : S) : Py S :=
  match xs with
  | [] => ret s
  | x :: xs' => bind (body x s) (for_in xs' body)
  end.

(** ** Values of the libraries the program calls *)

(** What [json.loads] returns.  A float is carried by its [repr]; a dict
    keeps its items in insertion order. *)
Inductive json :=
| JNull
| JBool (b : bool)
| JInt (n : Z)
| JFloat (repr : str)
| JStr (s : str)
| JList (items : list json)
| JDict (items : list (str * json)).

(** *** JSON texts, and what [json.dumps] prints

    [json.dumps] belongs to CPython, not to [app.py].  The definitions of
    this module follow [json/encoder.py] for the call the program makes,
    [json.dumps(data, indent=n)] with every other argument at its default
    ([ensure_ascii=True], [allow_nan=True], separators [","] and [": "]),
    and RFC 8259 for what a JSON text is.  The data are what [json.loads]
    returns: dict keys are strings, and integers and nesting stay within
    the limits of the interpreter, so that printing does not raise. *)
Module PyJson.

(** **** The grammar of RFC 8259 *)

Definition is_ws (c : N) : bool :=
  ((c =? 32) || (c =? 9) || (c =? 10) || (c =? 13))%N.

Definition ws (w : str) : Prop := Forall (λ c, is_ws c = true) w.

Definition is_digit (c : N) : bool := ((48 <=? c) && (c <=? 57))%N.

Definition is_hex (c : N) : bool :=
  (is_digit c || (97 <=? c) && (c <=? 102) || (65 <=? c) && (c <=? 70))%N.

Fixpoint skip_digits (s : str) : str :=
  match s with
  | [] => []
  | c :: r => if is_digit c then skip_digits r else s
  end.

(** After [e] or [E]: an optional sign and at least one digit. *)
Definition is_exponent (s : str) : bool :=
  let r := match s with
           | c :: r' => if ((c =? 43) || (c =? 45))%N then r' else s
           | [] => []
           end in
  match r with
  | d :: r' => is_digit d && match skip_digits r' with
                             | [] => true
                             | _ :: _ => false
                             end
  | [] => false
  end.

Definition after_frac (s : str) : bool :=
  match s with
  | [] => true
  | c :: r => ((c =? 101) || (c =? 69))%N && is_exponent r
  end.

Definition after_int (s : str) : bool :=
  match s with
  | [] => true
  | c :: r =>
      if (c =? 46)%N then
        match r with
        | d :: r' => is_digit d && after_frac (skip_digits r')
        | [] => false
        end
      else after_frac s
  end.

(** number = [ minus ] int [ frac ] [ exp ], no leading zero. *)
Definition is_number (s : str) : bool :=
  let r := match s with
           | c :: r' => if (c =? 45)%N then r' else s
           | [] => []
           end in
  match r with
  | d :: r' =>
      if (d =? 48)%N then after_int r'
      else if is_digit d then after_int (skip_digits r')
      else false
  | [] => false
  end.

(** The characters a string may hold unescaped. *)
Definition is_unescaped (c : N) : bool :=
  ((32 <=? c) && negb (c =? 34) && negb (c =? 92))%N.

(** The characters that may follow a backslash, [u] apart. *)
Definition is_escape (c : N) : bool :=
  ((c =? 34) || (c =? 92) || (c =? 47) || (c =? 98) || (c =? 102)
   || (c =? 110) || (c =? 114) || (c =? 116))%N.

(** The text between the quotes of a string. *)
Inductive json_chars : str → Prop :=
| jc_nil : json_chars []
| jc_plain c rest :
    is_unescaped c = true → json_chars rest → json_chars (c :: rest)
| jc_escape c rest :
    is_escape c = true → json_chars rest →
    json_chars (92%N :: c :: rest)
| jc_unicode h1 h2 h3 h4 rest :
    is_hex h1 = true → is_hex h2 = true →
    is_hex h3 = true → is_hex h4 = true →
    json_chars rest →
    json_chars (92%N :: 117%N :: h1 :: h2 :: h3 :: h4 :: rest).

Inductive json_value : str → Prop :=
| jv_null : json_value (lit "null")
| jv_true : json_value (lit "true")
| jv_false : json_value (lit "false")
| jv_number s : is_number s = true → json_value s
| jv_string body : json_chars body → json_value (34%N :: body ++ [34%N])
| jv_array_empty w : ws w → json_value (91%N :: w ++ [93%N])
| jv_array elements :
    json_elements elements → json_value (91%N :: elements ++ [93%N])
| jv_object_empty w : ws w → json_value (123%N :: w ++ [125%N])
| jv_object members :
    json_members members → json_value (123%N :: members ++ [125%N])
with json_elements : str → Prop :=
| je_last w1 v w2 :
    ws w1 → json_value v → ws w2 → json_elements (w1 ++ v ++ w2)
| je_more w1 v w2 rest :
    ws w1 → json_value v → ws w2 → json_elements rest →
    json_elements (w1 ++ v ++ w2 ++ 44%N :: rest)
with json_members : str → Prop :=
| jm_last w1 key w2 w3 v w4 :
    ws w1 → json_chars key → ws w2 → ws w3 → json_value v → ws w4 →
    json_members (w1 ++ (34%N :: key ++ [34%N]) ++ w2
                  ++ 58%N :: w3 ++ v ++ w4)
| jm_more w1 key w2 w3 v w4 rest :
    ws w1 → json_chars key → ws w2 → ws w3 → json_value v → ws w4 →
    json_members rest →
    json_members (w1 ++ (34%N :: key ++ [34%N]) ++ w2
                  ++ 58%N :: w3 ++ v ++ w4 ++ 44%N :: rest).

(** JSON-text = ws value ws. *)
Definition valid_json (s : str) : Prop :=
  ∃ w1 v w2, s = w1 ++ v ++ w2 ∧ ws w1 ∧ json_value v ∧ ws w2.

(** The characters a value can start with. *)
Definition value_start (c : N) : bool :=
  ((c =? 110) || (c =? 116) || (c =? 102) || (c =? 45) || is_digit c
   || (c =? 34) || (c =? 91) || (c =? 123))%N.

Fixpoint skip_ws (s : str) : str :=
  match s with
  | [] => []
  | c :: r => if is_ws c then skip_ws r else s
  end.

(** **** The encoder *)

(** One lower-case hexadecimal digit, and ['{0:04x}'.format(n)]. *)
Definition hex_digit (n : N) : N := (if n <? 10 then 48 + n else 87 + n)%N.

Definition hex4 (n : N) : str :=
  [hex_digit ((n / 4096) mod 16); hex_digit ((n / 256) mod 16);
   hex_digit ((n / 16) mod 16); hex_digit (n mod 16)]%N.

(** [replace] of [py_encode_basestring_ascii]: the short escapes of
    [ESCAPE_DCT], the printable ASCII characters as they are, and [\uXXXX]
    for the rest, as a surrogate pair beyond the basic plane. *)
Definition escape_char (c : N) : str :=
  (if c =? 92 then [92; 92]
   else if c =? 34 then [92; 34]
   else if c =? 8 then [92; 98]
   else if c =? 12 then [92; 102]
   else if c =? 10 then [92; 110]
   else if c =? 13 then [92; 114]
   else if c =? 9 then [92; 116]
   else if (32 <=? c) && (c <=? 126) then [c]
   else if c <? 65536 then 92 :: 117 :: hex4 c
   else
     let n := c - 65536 in
     let s1 := N.lor 55296 (N.land (N.shiftr n 10) 1023) in
     let s2 := N.lor 56320 (N.land n 1023) in
     (92 :: 117 :: hex4 s1) ++ (92 :: 117 :: hex4 s2))%N.

(** [encode_basestring_ascii(s)]. *)
Definition quote (s : str) : str :=
  34%N :: concat (map escape_char s) ++ [34%N].

Fixpoint digit_codes (u : Decimal.uint) : str :=
  match u with
  | Decimal.Nil => []
  | Decimal.D0 u' => 48%N :: digit_codes u'
  | Decimal.D1 u' => 49%N :: digit_codes u'
  | Decimal.D2 u' => 50%N :: digit_codes u'
  | Decimal.D3 u' => 51%N :: digit_codes u'
  | Decimal.D4 u' => 52%N :: digit_codes u'
  | Decimal.D5 u' => 53%N :: digit_codes u'
  | Decimal.D6 u' => 54%N :: digit_codes u'
  | Decimal.D7 u' => 55%N :: digit_codes u'
  | Decimal.D8 u' => 56%N :: digit_codes u'
  | Decimal.D9 u' => 57%N :: digit_codes u'
  end.

(** [int.__repr__]. *)
Definition int_text (n : Z) : str :=
  match n with
  | Z0 => [48%N]
  | Zpos p => digit_codes (Pos.to_uint p)
  | Zneg p => 45%N :: digit_codes (Pos.to_uint p)
  end.

(** [floatstr]: the [repr] of a finite float, and the three names the
    encoder prints for the others when [allow_nan] is true. *)
Definition float_text (repr : str) : str :=
  if bool_decide (repr = lit "nan") then lit "NaN"
  else if bool_decide (repr = lit "inf") then lit "Infinity"
  else if bool_decide (repr = lit "-inf") then lit "-Infinity"
  else repr.

(** ['\n' + ' ' * indent * level]. *)
Definition newline_indent (indent level : nat) : str :=
  10%N :: replicate (indent * level) 32%N.

(** [_iterencode] at nesting depth [level]. *)
Fixpoint encode (indent level : nat) (data : json) : str :=
  match data with
  | JNull => lit "null"
  | JBool true => lit "true"
  | JBool false => lit "false"
  | JInt n => int_text n
  | JFloat repr => float_text repr
  | JStr s => quote s
  | JList items =>
      match items with
      | [] => lit "[]"
      | _ :: _ =>
          lit "[" ++ newline_indent indent (S level)
          ++ join (lit "," ++ newline_indent indent (S level))
               (map (encode indent (S level)) items)
          ++ newline_indent indent level ++ lit "]"
      end
  | JDict items =>
      match items with
      | [] => lit "{}"
      | _ :: _ =>
          lit "{" ++ newline_indent indent (S level)
          ++ join (lit "," ++ newline_indent indent (S level))
               (map (λ item, quote (fst item) ++ lit ": "
                             ++ encode indent (S level) (snd item))
                  items)
          ++ newline_indent indent level ++ lit "}"
      end
  end.

(** [json.dumps(data, indent=indent)]. *)
Definition dumps (data : json) (indent : nat) : str := encode indent 0 data.

(** No float of the data is [nan] or infinite: every float prints as a
    JSON number. *)
Fixpoint finite (data : json) : bool :=
  match data with
  | JFloat repr => is_number repr
  | JList items => forallb finite items
  | JDict items => forallb (λ item, finite (snd item)) items
  | _ => true
  end.

End PyJson.

(** A pandas cell, an indexed row and a frame. *)
Inductive cell :=
| CInt (n : Z)
| CFloat (repr : str)
| CStr (s : str)
| CBool (b : bool)
| CNaN.

Record row := { row_label : cell; row_values : list cell }.

Record DataFrame := { df_columns : list str; df_rows : list row }.

(** [df.head(n)] for [n >= 0]: the first [n] rows, all columns. *)
Definition head (n : nat) (df : DataFrame) : DataFrame :=
  {| df_columns := df_columns df; df_rows := take n (df_rows df) |}.

(** The library calls of [app.py].  [serving_query] is given the requests
    already sent, so that an endpoint may answer differently over time. *)
Record Lib := {
  (** [base64.b64decode(s)] *)
  b64decode : str → Res bytes;
  (** [b.decode('utf-8')] *)
  decode_utf8 : bytes → Res str;
  (** [pd.read_csv(io.StringIO(text))] *)
  read_csv : str → Res DataFrame;
  (** [pd.read_excel(io.BytesIO(b))] *)
  read_excel : bytes → Res DataFrame;
  (** [df.to_string()] *)
  to_string : DataFrame → str;
  (** [json.loads(text)] *)
  json_loads : str → Res json;
  (** [json.dumps(data, indent=n)] *)
  json_dumps : json → nat → str;
  (** [WorkspaceClient(profile=p, host=h)], [WorkspaceClient()] *)
  workspace_client : option str → option str → Res unit;
  (** [w.serving_endpoints.query(name=…, messages=…, max_tokens=…)] *)
  serving_query : list Request → Request → Res Response
}.

(** The machine the process starts on: its environment variables (after
    [load_dotenv]), its files, and the directory of [app.py]. *)
Record Host := {
  environ : gmap string str;
  files : gmap str bytes;
  app_dir : str
}.

(** The module-level names the functions read. *)
Record App := {
  DATABRICKS_CONFIG_PROFILE : option str;
  DATABRICKS_HOST : option str;
  SERVING_ENDPOINT : option str;
  SYSTEM_PROMPT : str
}.

(** A message of the conversation: a dict with string keys. *)
Abbreviation message_dict := (gmap string value).

(** [d[k]]. *)
Definition getitem (d : message_dict) (k : string) : Res value :=
  match d !! k with
  | Some v => Ok v
  | None => Raise (Exn "KeyError" (lit "'" ++ lit k ++ lit "'"))
  end.

(** [conversation.append(m)]. *)
Definition append {A} (l : list A) (x : A) : list A := l ++ [x].

(** [a, b = parts]. *)
Definition unpack2 (parts : list str) : Res (str * str) :=
  match parts with
  | [a; b] => Ok (a, b)
  | [] => Raise (Exn "ValueError"
                   (lit "not enough values to unpack (expected 2, got 0)"))
  | [_] => Raise (Exn "ValueError"
                    (lit "not enough values to unpack (expected 2, got 1)"))
  | _ => Raise (Exn "ValueError"
                  (lit "too many values to unpack (expected 2)"))
  end.

(** ** Dash: callback outputs and the components rendered *)

Inductive output (A : Type) : Type :=
| no_update
| update (a : A).
Arguments no_update {A}.
Arguments update {A} a.

(** What a [dcc.Store] or a component property holds after a callback. *)
Definition apply_output {A} (old : A) (o : output A) : A :=
  match o with
  | no_update => old
  | update a => a
  end.

Inductive Child :=
| Text (v : value)
| Markdown (v : value).

(** [html.Div(children, className=…, style=…)]. *)
Record Div := {
  children : Child;
  className : str;
  style : list (string * string)
}.

(** ** The program *)

Section Program.

Context (L : Lib).

(** *** Start-up: the module-level statements of [app.py] *)

Section Startup.

Context (H : Host).

(** [os.getenv(name)]. *)
Definition getenv (name : string) : option str := environ H !! name.

(** [Path(__file__).resolve().parent / "metadata_prompt.txt"]. *)
Definition prompt_path : str :=
  if endswith (app_dir H) (lit "/")
  then app_dir H ++ lit "metadata_prompt.txt"
  else app_dir H ++ lit "/" ++ lit "metadata_prompt.txt".

(** [path.exists()]. *)
Definition path_exists (path : str) : bool :=
  bool_decide (is_Some (files H !! path)).

(** [path.read_text(encoding="utf-8")]: the file is opened in text mode,
    so the decoded text goes through the newline translation. *)
Definition read_text (path : str) : Py str := λ w,
  (match files H !! path with
   | Some b => (let? text := decode_utf8 L b in
                Ok (universal_newlines text))%res
   | None => Raise (Exn "FileNotFoundError"
                      (lit "[Errno 2] No such file or directory: '"
                       ++ path ++ lit "'"))
   end,
   {| sent := sent w; reads := append (reads w) path |}).

Definition _load_system_prompt : Py str :=
  if negb (path_exists prompt_path) then
    raise (Exn "FileNotFoundError"
             (lit "Metadata prompt file not found: " ++ prompt_path
              ++ lit ". "
              ++ lit "Ensure metadata_prompt.txt exists in the same directory as app.py."))
  else
    (let* text := read_text prompt_path in
     ret (strip text))%py.

(** Lines 29-73: the configuration is read, the workspace client is
    built, and [SYSTEM_PROMPT = _load_system_prompt()] runs outside
    any [try].  The statements after line 73 (styling, layout, callback
    registration) assign no name the functions below read. *)
Definition startup : Py App :=
  let profile := getenv "DATABRICKS_CONFIG_PROFILE" in
  let host := getenv "DATABRICKS_HOST" in
  let endpoint := getenv "DATABRICKS_SERVING_ENDPOINT" in
  (let* w := lift (if truthy_opt profile && truthy_opt host
                   then workspace_client L profile host
                   else workspace_client L None None) in
   let* prompt := _load_system_prompt in
   ret {| DATABRICKS_CONFIG_PROFILE := profile;
          DATABRICKS_HOST := host;
          SERVING_ENDPOINT := endpoint;
          SYSTEM_PROMPT := prompt |})%py.

End Startup.

(** *** File Sampler *)

(** The body of the [try] of lines 223-249. *)
Definition parse_file_body (contents filename : str) : Res str :=
  (let? '(content_type, content_string) := unpack2 (split 44 contents) in
   let? decoded := b64decode L content_string in
   if endswith filename (lit ".csv") then
     let? text := decode_utf8 L decoded in
     let? df := read_csv L text in
     let sample := to_string L (head 10 df) in
     Ok (lit "File: " ++ filename ++ nl
         ++ lit "Sample data (first 10 rows):" ++ nl ++ nl ++ sample)
   else if endswith_any filename [lit ".xlsx"; lit ".xls"] then
     let? df := read_excel L decoded in
     let sample := to_string L (head 10 df) in
     Ok (lit "File: " ++ filename ++ nl
         ++ lit "Sample data (first 10 rows):" ++ nl ++ nl ++ sample)
   else if endswith filename (lit ".json") then
     let? text := decode_utf8 L decoded in
     let? data := json_loads L text in
     let sample :=
       match data with
       | JList items => json_dumps L (JList (take 10 items)) 2
       | _ => json_dumps L data 2
       end in
     Ok (lit "File: " ++ filename ++ nl
         ++ lit "Sample data:" ++ nl ++ nl ++ sample)
   else
     let? text := decode_utf8 L decoded in
     let lines := take 10 (split 10 text) in
     Ok (lit "File: " ++ filename ++ nl
         ++ lit "Sample data (first 10 lines):" ++ nl ++ nl
         ++ join (chr 10) lines))%res.

Definition parse_file_content (contents filename : str) : Res str :=
  try_except_res
    (parse_file_body contents filename)
    (λ e, Ok (lit "Error parsing file: " ++ exn_str e)).

(** *** Model Gateway *)

Context (app : App).

(** [w.serving_endpoints.query(…)]: the request leaves the process
    whether or not the call then raises. *)
Definition query (name : str) (messages : list ChatMessage)
    (max_tokens : Z) : Py Response := λ w,
  let req := {| req_name := name; req_messages := messages;
                req_max_tokens := max_tokens |} in
  (serving_query L (sent w) req,
   {| sent := append (sent w) req; reads := reads w |}).

(** The text of lines 258-259. *)
Definition endpoint_unset_message : str :=
  lit "Error: DATABRICKS_SERVING_ENDPOINT is not set. "
  ++ lit "Add it to your .env file for local development, or ensure the app is deployed with a serving endpoint resource.".

Definition fallback_message : str :=
  lit "Sorry, I couldn't process that request.".

(** The body of the loop of lines 267-269. *)
Definition add_chat_message (msg : message_dict)
    (chat_messages : list ChatMessage) : Py (list ChatMessage) :=
  (let* r := lift (getitem msg "role") in
   let role := if bool_decide (r = VStr (lit "user"))
               then USER else ASSISTANT in
   let* c := lift (getitem msg "content") in
   ret (append chat_messages {| cm_role := role; cm_content := c |}))%py.

(** The result is what the [return] statements give: a [str] on every
    path but line 280, which returns the [content] attribute as it is. *)
Definition call_databricks_model (messages : list message_dict)
    : Py value :=
  if negb (truthy_opt (SERVING_ENDPOINT app)) then
    ret (VStr endpoint_unset_message)
  else
    try_except
      (let chat_messages :=
         [ {| cm_role := SYSTEM;
              cm_content := VStr (SYSTEM_PROMPT app) |} ] in
       let* chat_messages :=
         for_in messages add_chat_message chat_messages in
       let* response :=
         query (default [] (SERVING_ENDPOINT app)) chat_messages 2000 in
       match choices response with
       | Absent => ret (VStr fallback_message)
       | IsNone =>
           raise (Exn "TypeError"
                    (lit "object of type 'NoneType' has no len()"))
       | Value cs =>
           if bool_decide (0 < length cs) then
             match cs !! 0 with
             | Some c =>
                 match message c with
                 | Some m => ret (cm_content m)
                 | None =>
                     raise (Exn "AttributeError"
                              (lit "'NoneType' object has no attribute 'content'"))
                 end
             | None => raise (Exn "IndexError"
                                (lit "list index out of range"))
             end
           else ret (VStr fallback_message)
       end)%py
      (λ e, ret (VStr (lit "Error calling model: " ++ exn_str e))).

(** *** The two callbacks *)

Definition user_message (content : str) : message_dict :=
  {[ "role" := VStr (lit "user"); "content" := VStr content ]}.

Definition assistant_message (content : value) : message_dict :=
  {[ "role" := VStr (lit "assistant"); "content" := content ]}.

(** The body of the loop of lines 432-447 and of lines 482-497, which
    are the same. *)
Definition add_bubble (msg : message_dict) (messages : list Div)
    : Py (list Div) :=
  (let* r := lift (getitem msg "role") in
   if bool_decide (r = VStr (lit "user")) then
     let* c := lift (getitem msg "content") in
     ret (append messages
            {| children := Text c;
               className := lit "chat-message user";
               style := [("whiteSpace", "pre-wrap")] |})
   else
     let* c := lift (getitem msg "content") in
     ret (append messages
            {| children := Markdown c;
               className := lit "chat-message assistant";
               style := [] |}))%py.

Definition handle_file_upload (contents : option str) (filename : str)
    (conversation : option (list message_dict))
    : Py (output (option str) * output (list Div)
          * output (list message_dict)) :=
  match contents with
  | None => ret (update None, no_update, no_update)
  | Some contents =>
      (let* file_content := lift (parse_file_content contents filename) in
       let conversation := default [] conversation in
       let conversation :=
         append conversation
           (user_message (lit "[File uploaded: " ++ filename ++ lit "]"
                          ++ nl ++ nl ++ file_content)) in
       let* ai_response := call_databricks_model conversation in
       let conversation :=
         append conversation (assistant_message ai_response) in
       let* messages := for_in conversation add_bubble [] in
       ret (update (Some file_content), update messages,
            update conversation))%py
  end.

Definition send_message (n_clicks : Z) (message : option str)
    (conversation : option (list message_dict))
    : Py (output (list Div) * output str * output (list message_dict)) :=
  if negb (truthy_opt message)
     || negb (truthy (strip (default [] message)))
  then ret (no_update, no_update, no_update)
  else
    (let message := default [] message in
     let conversation := default [] conversation in
     let conversation := append conversation (user_message message) in
     let* ai_response := call_databricks_model conversation in
     let conversation :=
       append conversation (assistant_message ai_response) in
     let* messages := for_in conversation add_bubble [] in
     ret (update messages, update [], update conversation))%py.

End Program.

(** ** Vocabulary of the properties *)

(** A message as the data model has it: a dict with both keys. *)
Definition well_formed (m : message_dict) : Prop :=
  is_Some (m !! "role") ∧ is_Some (m !! "content").

#[global] Instance well_formed_dec m : Decision (well_formed m).
Proof. unfold well_formed. apply _. Defined.

(** What lines 268-269 build from a dict that has both keys. *)
Definition chat_message_of (m : message_dict) : ChatMessage :=
  {| cm_role := if bool_decide (default VNone (m !! "role") = VStr (lit "user"))
                then USER else ASSISTANT;
     cm_content := default VNone (m !! "content") |}.

Definition system_message (app : App) : ChatMessage :=
  {| cm_role := SYSTEM; cm_content := VStr (SYSTEM_PROMPT app) |}.

(** The request a conversation of well-formed messages leads to. *)
Definition gateway_request (app : App) (conversation : list message_dict)
    : Request :=
  {| req_name := default [] (SERVING_ENDPOINT app);
     req_messages := system_message app :: map chat_message_of conversation;
     req_max_tokens := 2000 |}.

(** The bubble lines 433-447 render for a dict that has both keys. *)
Definition bubble_of (m : message_dict) : Div :=
  if bool_decide (default VNone (m !! "role") = VStr (lit "user")) then
    {| children := Text (default VNone (m !! "content"));
       className := lit "chat-message user";
       style := [("whiteSpace", "pre-wrap")] |}
  else
    {| children := Markdown (default VNone (m !! "content"));
       className := lit "chat-message assistant";
       style := [] |}.

(** The two ways the callbacks extend the conversation. *)
Inductive turn :=
| UserTurn (content : str)
| AssistantTurn (content : value).

Definition turn_message (t : turn) : message_dict :=
  match t with
  | UserTurn c => user_message c
  | AssistantTurn c => assistant_message c
  end.

Definition record_turn (conversation : list message_dict) (t : turn)
    : list message_dict :=
  append conversation (turn_message t).

(** What the gateway makes of the outcome of the remote call. *)
Definition reply_text (outcome : Res Response) : value :=
  match outcome with
  | Raise e => VStr (lit "Error calling model: " ++ exn_str e)
  | Ok response =>
      match choices response with
      | Absent | Value [] => VStr fallback_message
      | IsNone =>
          VStr (lit "Error calling model: "
                ++ lit "object of type 'NoneType' has no len()")
      | Value (c :: _) =>
          match message c with
          | Some m => cm_content m
          | None =>
              VStr (lit "Error calling model: "
                    ++ lit "'NoneType' object has no attribute 'content'")
          end
      end
  end.

(** A text with at least one character that is not white space. *)
Definition has_visible_char (s : str) : Prop :=
  Exists (λ c, isspace c = false) s.

(** The ways decoding or parsing an upload fails with exception [e]:
    the data URL does not unpack, the base64 text does not decode, the
    bytes are not UTF-8 where text is needed, or the parser of the
    detected format rejects the content. *)
Inductive sampler_failure (L : Lib) (contents filename : str) (e : exn)
    : Prop :=
| fail_unpack :
    unpack2 (split 44 contents) = Raise e →
    sampler_failure L contents filename e
| fail_base64 content_type content_string :
    split 44 contents = [content_type; content_string] →
    b64decode L content_string = Raise e →
    sampler_failure L contents filename e
| fail_utf8 content_type content_string decoded :
    split 44 contents = [content_type; content_string] →
    b64decode L content_string = Ok decoded →
    endswith_any filename [lit ".xlsx"; lit ".xls"] = false →
    decode_utf8 L decoded = Raise e →
    sampler_failure L contents filename e
| fail_csv content_type content_string decoded text :
    split 44 contents = [content_type; content_string] →
    b64decode L content_string = Ok decoded →
    endswith filename (lit ".csv") = true →
    decode_utf8 L decoded = Ok text →
    read_csv L text = Raise e →
    sampler_failure L contents filename e
| fail_excel content_type content_string decoded :
    split 44 contents = [content_type; content_string] →
    b64decode L content_string = Ok decoded →
    endswith_any filename [lit ".xlsx"; lit ".xls"] = true →
    read_excel L decoded = Raise e →
    sampler_failure L contents filename e
| fail_json content_type content_string decoded text :
    split 44 contents = [content_type; content_string] →
    b64decode L content_string = Ok decoded →
    endswith filename (lit ".json") = true →
    decode_utf8 L decoded = Ok text →
    json_loads L text = Raise e →
    sampler_failure L contents filename e.

(** ** Libraries with canned answers, for the examples *)

Module Canned.

(** Every call answers with the value given here, whatever it is
    handed. *)
Definition lib (decoded : Res bytes) (text : Res str)
    (frame : Res DataFrame) (data : Res json) (reply : Res Response)
    : Lib :=
  {| b64decode := λ _, decoded;
     decode_utf8 := λ _, text;
     read_csv := λ _, frame;
     read_excel := λ _, frame;
     to_string := λ df, lit "<table>";
     json_loads := λ _, data;
     json_dumps := λ _ _, lit "<json>";
     workspace_client := λ _ _, Ok ();
     serving_query := λ _ _, reply |}.

(** The same, with CPython's [json.dumps]. *)
Definition python_json (decoded : Res bytes) (text : Res str)
    (data : Res json) : Lib :=
  {| b64decode := λ _, decoded;
     decode_utf8 := λ _, text;
     read_csv := λ _, Raise (Exn "RuntimeError" (lit "not used"));
     read_excel := λ _, Raise (Exn "RuntimeError" (lit "not used"));
     to_string := λ df, lit "<table>";
     json_loads := λ _, data;
     json_dumps := PyJson.dumps;
     workspace_client := λ _ _, Ok ();
     serving_query := λ _ _, Raise (Exn "RuntimeError" (lit "not used")) |}.

Definition refused {A} : Res A :=
  Raise (Exn "RuntimeError" (lit "not used")).

(** An endpoint that answers with one choice whose message holds
    [content], which may be [None]. *)
Definition reply_of (content : value) : Res Response :=
  Ok {| choices :=
          Value [ {| message := Some {| cm_role := ASSISTANT;
                                        cm_content := content |} |} ] |}.

(** The same for a text. *)
Definition reply_with (content : str) : Res Response :=
  reply_of (VStr content).

(** Only the endpoint answers. *)
Definition endpoint (reply : Res Response) : Lib :=
  lib refused refused refused refused reply.

(** Only the upload path answers. *)
Definition upload (decoded : Res bytes) (text : Res str)
    (frame : Res DataFrame) (data : Res json) : Lib :=
  lib decoded text frame data refused.

Definition app (endpoint : option str) : App :=
  {| DATABRICKS_CONFIG_PROFILE := None;
     DATABRICKS_HOST := None;
     SERVING_ENDPOINT := endpoint;
     SYSTEM_PROMPT := lit "You describe datasets." |}.

Definition world : World := {| sent := []; reads := [] |}.

(** A host with or without the prompt file. *)
Definition host (prompt : option bytes) : Host :=
  {| environ := {[ "DATABRICKS_SERVING_ENDPOINT" := lit "claude" ]};
     files := match prompt with
              | Some b => {[ lit "/srv/app/metadata_prompt.txt" := b ]}
              | None => ∅
              end;
     app_dir := lit "/srv/app" |}.

Definition two_messages : list message_dict :=
  [ user_message (lit "[File uploaded: a.csv]");
    assistant_message (VStr (lit "A table of stations.")) ].

End Canned.

(** ** A session: the callbacks as the decorators wire them *)

(** The number of occurrences of a character, [s.count(c)]. *)
Fixpoint count_char (c : N) (s : str) : nat :=
  match s with
  | [] => 0
  | x :: s' => (if N.eqb x c then 1 else 0) + count_char c s'
  end.

(** The component properties the two callbacks read and write
    (lines 393-395, 398-406 and 451-459): the store
    'conversation-history' (initially [[]]), the store
    'uploaded-file-data' (initially [None]), the children of
    'chat-messages' and the value of 'message-input'. *)
Record Session := {
  conversation_history : list message_dict;
  uploaded_file_data : option str;
  chat_messages : list Div;
  message_input : option str
}.

Definition initial_session : Session :=
  {| conversation_history := [];
     uploaded_file_data := None;
     chat_messages := [];
     message_input := None |}.

(** What the user does: drop a file on the upload area (or clear it), or
    click Send with some text in the input. *)
Inductive event :=
| FileDropped (contents : option str) (filename : str)
| SendClicked (n_clicks : Z) (typed : option str).

Section Wiring.

Context (L : Lib) (app : App).

(** [handle_file_upload] with its [State] and [Output]s. *)
Definition on_upload (contents : option str) (filename : str) (s : Session)
    : Py Session :=
  bind (handle_file_upload L app contents filename
          (Some (conversation_history s)))
    (λ out,
       ret {| conversation_history :=
                apply_output (conversation_history s) out.2;
              uploaded_file_data :=
                apply_output (uploaded_file_data s) out.1.1;
              chat_messages := apply_output (chat_messages s) out.1.2;
              message_input := message_input s |}).

(** [send_message] with its [State]s and [Output]s; the empty string it
    returns for the input is the value [Some []]. *)
Definition on_send (n_clicks : Z) (typed : option str) (s : Session)
    : Py Session :=
  bind (send_message L app n_clicks typed (Some (conversation_history s)))
    (λ out,
       ret {| conversation_history :=
                apply_output (conversation_history s) out.2;
              uploaded_file_data := uploaded_file_data s;
              chat_messages := apply_output (chat_messages s) out.1.1;
              message_input :=
                match out.1.2 with
                | no_update => typed
                | update v => Some v
                end |}).

Definition fire (ev : event) (s : Session) : Py Session :=
  match ev with
  | FileDropped contents filename => on_upload contents filename s
  | SendClicked n_clicks typed => on_send n_clicks typed s
  end.

(** The events of a session, one after the other. *)
Fixpoint run (events : list event) (s : Session) : Py Session :=
  match events with
  | [] => ret s
  | ev :: events' => bind (fire ev s) (run events')
  end.

End Wiring.

(** An event that passes the guard of its callback. *)
Definition effective (ev : event) : bool :=
  match ev with
  | FileDropped contents _ => bool_decide (is_Some contents)
  | SendClicked _ typed =>
      truthy_opt typed && truthy (strip (default [] typed))
  end.

(** A user message and the reply to it. *)
Definition exchange (turn : str * value) : list message_dict :=
  [user_message turn.1; assistant_message turn.2].

(** A conversation made of exchanges only. *)
Definition paired (conversation : list message_dict) : Prop :=
  ∃ turns, conversation = concat (map exchange turns).

(** The header of a preview, up to the label. *)
Definition preview_header (filename label : str) : str :=
  lit "File: " ++ filename ++ nl ++ label ++ nl ++ nl.

(** * Properties *)

(** ** Strings *)

Section StrFacts.

Implicit Types s suf sub : str.

(** The string operations on the inputs the Python documentation gives:
    ['a,,b,'.split(',')], ['  a b \n'.strip()], and a suffix longer than
    the string. *)
Example split_keeps_empty_parts :
  split 44 (lit "a,,b,") = [lit "a"; []; lit "b"; []].
Proof. reflexivity. Qed.

Example split_without_separator : split 44 (lit "abc") = [lit "abc"].
Proof. reflexivity. Qed.

Example strip_both_ends : strip (lit "  a b " ++ nl) = lit "a b".
Proof. reflexivity. Qed.

Example endswith_longer_suffix : endswith (lit "csv") (lit ".csv") = false.
Proof. reflexivity. Qed.

Example endswith_is_case_sensitive :
  endswith (lit "DATA.CSV") (lit ".csv") = false.
Proof. reflexivity. Qed.

Lemma endswith_iff s suf :
  endswith s suf = true ↔ ∃ p, s = p ++ suf.
Proof.
  unfold endswith. rewrite bool_decide_eq_true. split.
  - intros E. exists (take (length s - length suf) s).
    rewrite <- E at 2. symmetry. apply take_drop.
  - intros [p ->]. rewrite length_app.
    replace (length p + length suf - length suf) with (length p) by lia.
    apply drop_app_length.
Qed.

Lemma endswith_last s suf c :
  endswith s suf = true → last suf = Some c → last s = Some c.
Proof.
  intros [p ->]%endswith_iff Hc. rewrite last_app, Hc. reflexivity.
Qed.

(** Two suffixes that end in different characters exclude each other. *)
Lemma endswith_excl s suf1 suf2 c1 c2 :
  last suf1 = Some c1 → last suf2 = Some c2 → c1 ≠ c2 →
  endswith s suf1 = true → endswith s suf2 = false.
Proof.
  intros H1 H2 Hne E1.
  destruct (endswith s suf2) eqn:E2; [|reflexivity].
  pose proof (endswith_last _ _ _ E1 H1) as L1.
  pose proof (endswith_last _ _ _ E2 H2) as L2.
  congruence.
Qed.

Lemma json_not_csv s :
  endswith s (lit ".json") = true → endswith s (lit ".csv") = false.
Proof. by apply (endswith_excl s (lit ".json") _ 110%N 118%N). Qed.

Lemma json_not_excel s :
  endswith s (lit ".json") = true →
  endswith_any s [lit ".xlsx"; lit ".xls"] = false.
Proof.
  intros E. unfold endswith_any, existsb.
  rewrite (endswith_excl s (lit ".json") (lit ".xlsx") 110%N 120%N),
    (endswith_excl s (lit ".json") (lit ".xls") 110%N 115%N);
    reflexivity || discriminate || assumption.
Qed.

Lemma excel_not_csv s :
  endswith_any s [lit ".xlsx"; lit ".xls"] = true →
  endswith s (lit ".csv") = false.
Proof.
  unfold endswith_any, existsb. intros E.
  apply orb_true_iff in E as [E|E].
  - by apply (endswith_excl s (lit ".xlsx") _ 120%N 118%N).
  - rewrite orb_false_r in E.
    by apply (endswith_excl s (lit ".xls") _ 115%N 118%N).
Qed.

Lemma split_cons sep s : ∃ part parts, split sep s = part :: parts.
Proof.
  induction s as [|c s IH]; simpl; [by eauto|].
  destruct (N.eqb c sep); [by eauto|].
  destruct IH as (part & parts & ->). by eauto.
Qed.

(** Joining the parts with the separator gives the text back. *)
Lemma join_split sep s : join (chr sep) (split sep s) = s.
Proof.
  induction s as [|c s IH]; simpl; [done|].
  destruct (N.eqb_spec c sep) as [->|Hne].
  - destruct (split_cons sep s) as (part & parts & E).
    rewrite E in IH |- *. simpl in *. by rewrite IH.
  - destruct (split_cons sep s) as (part & parts & E).
    rewrite E in IH |- *. destruct parts; simpl in *; by rewrite <- IH.
Qed.

Lemma lstrip_nil_iff s : lstrip s = [] ↔ Forall (λ c, isspace c = true) s.
Proof.
  induction s as [|c s IH]; simpl.
  - split; [constructor|done].
  - destruct (isspace c) eqn:E.
    + rewrite IH. split; [by constructor|by inversion 1].
    + split; [done|]. inversion 1; congruence.
Qed.

Lemma lstrip_idemp s : lstrip (lstrip s) = lstrip s.
Proof.
  induction s as [|c s IH]; simpl; [done|].
  destruct (isspace c) eqn:E; [done|]. simpl. by rewrite E.
Qed.

(** [s.strip()] is empty exactly for a text of white space only. *)
Lemma strip_nil_iff s : strip s = [] ↔ Forall (λ c, isspace c = true) s.
Proof.
  unfold strip, rstrip. split.
  - intros E. apply (f_equal (@rev N)) in E.
    rewrite rev_involutive in E. simpl in E.
    apply lstrip_nil_iff, Forall_rev in E.
    rewrite rev_involutive in E.
    apply lstrip_nil_iff in E. rewrite lstrip_idemp in E.
    by apply lstrip_nil_iff.
  - intros F. apply lstrip_nil_iff in F as ->. reflexivity.
Qed.

Lemma strip_visible s : has_visible_char s → truthy (strip s) = true.
Proof.
  intros V. destruct (strip s) eqn:E; [|done].
  apply strip_nil_iff in E. unfold has_visible_char in V.
  apply Exists_exists in V as (c & Hc & Hs).
  rewrite Forall_forall in E. specialize (E c Hc). congruence.
Qed.

Lemma strip_blank s :
  Forall (λ c, isspace c = true) s → truthy (strip s) = false.
Proof. intros F. by apply strip_nil_iff in F as ->. Qed.

Lemma contains_app_l sub s t : contains sub s → contains sub (s ++ t).
Proof.
  intros (a & b & ->). exists a, (b ++ t). by rewrite <- !app_assoc.
Qed.

Lemma contains_app_r sub s t : contains sub t → contains sub (s ++ t).
Proof.
  intros (a & b & ->). exists (s ++ a), b. by rewrite <- !app_assoc.
Qed.

Lemma contains_refl s : contains s s.
Proof. exists [], []. by rewrite app_nil_r. Qed.

End StrFacts.

(** ** Sequencing and loops *)

Section Loops.

Context (L : Lib) (app : App).

Lemma getitem_lookup (m : message_dict) k v :
  m !! k = Some v → getitem m k = Ok v.
Proof. unfold getitem. by intros ->. Qed.

Lemma getitem_raise (m : message_dict) k :
  m !! k = None →
  getitem m k = Raise (Exn "KeyError" (lit "'" ++ lit k ++ lit "'")).
Proof. unfold getitem. by intros ->. Qed.

Lemma add_chat_message_wf m acc w :
  well_formed m →
  add_chat_message m acc w = (Ok (acc ++ [chat_message_of m]), w).
Proof.
  intros [[r Hr] [c Hc]]. unfold add_chat_message, chat_message_of, bind, lift.
  rewrite (getitem_lookup _ _ _ Hr), (getitem_lookup _ _ _ Hc), Hr, Hc.
  reflexivity.
Qed.

(** The loop of lines 267-269 maps the conversation, in order. *)
Lemma for_in_chat conversation acc w :
  Forall well_formed conversation →
  for_in conversation add_chat_message acc w
  = (Ok (acc ++ map chat_message_of conversation), w).
Proof.
  intros F. revert acc. induction F as [|m ms Hm _ IH]; intros acc; simpl.
  - by rewrite app_nil_r.
  - unfold bind at 1. rewrite add_chat_message_wf by done.
    rewrite IH, <- app_assoc. reflexivity.
Qed.

(** The loop sends nothing and reads nothing, whatever the dicts. *)
Lemma add_chat_message_world m acc w :
  snd (add_chat_message m acc w) = w.
Proof.
  unfold add_chat_message, bind, lift.
  destruct (getitem m "role"); [|done].
  by destruct (getitem m "content").
Qed.

Lemma for_in_chat_world conversation acc w :
  snd (for_in conversation add_chat_message acc w) = w.
Proof.
  revert acc. induction conversation as [|m ms IH]; intros acc; [done|].
  simpl. unfold bind at 1.
  pose proof (add_chat_message_world m acc w) as Hw.
  destruct (add_chat_message m acc w) as [[acc'|e] w1]; simpl in Hw; subst.
  - apply IH.
  - reflexivity.
Qed.

(** A dict without a key ends the loop with a [KeyError]. *)
Lemma for_in_chat_raise conversation acc w :
  ¬ Forall well_formed conversation →
  ∃ e, for_in conversation add_chat_message acc w = (Raise e, w).
Proof.
  intros NF. revert acc.
  induction conversation as [|m ms IH]; intros acc.
  - destruct NF. constructor.
  - simpl. unfold bind at 1.
    destruct (m !! "role") as [r|] eqn:Hr.
    + destruct (m !! "content") as [c|] eqn:Hc.
      * rewrite add_chat_message_wf by (split; eauto). apply IH.
        intros F. apply NF. constructor; [split; eauto|done].
      * unfold add_chat_message, bind, lift.
        rewrite (getitem_lookup _ _ _ Hr), (getitem_raise _ _ Hc). eauto.
    + unfold add_chat_message, bind, lift.
      rewrite (getitem_raise _ _ Hr). eauto.
Qed.

Lemma add_bubble_wf m acc w :
  well_formed m → add_bubble m acc w = (Ok (acc ++ [bubble_of m]), w).
Proof.
  intros [[r Hr] [c Hc]]. unfold add_bubble, bubble_of, bind, lift.
  rewrite (getitem_lookup _ _ _ Hr), (getitem_lookup _ _ _ Hc), Hr, Hc.
  simpl. by destruct (bool_decide (r = VStr (lit "user"))).
Qed.

Lemma for_in_bubbles conversation acc w :
  Forall well_formed conversation →
  for_in conversation add_bubble acc w
  = (Ok (acc ++ map bubble_of conversation), w).
Proof.
  intros F. revert acc. induction F as [|m ms Hm _ IH]; intros acc; simpl.
  - by rewrite app_nil_r.
  - unfold bind at 1. rewrite add_bubble_wf by done.
    rewrite IH, <- app_assoc. reflexivity.
Qed.

Lemma add_bubble_world m acc w : snd (add_bubble m acc w) = w.
Proof.
  unfold add_bubble, bind, lift.
  destruct (getitem m "role") as [r|]; [|done].
  destruct (bool_decide (r = VStr (lit "user"))); by destruct (getitem m "content").
Qed.

Lemma for_in_bubbles_world conversation acc w :
  snd (for_in conversation add_bubble acc w) = w.
Proof.
  revert acc. induction conversation as [|m ms IH]; intros acc; [done|].
  simpl. unfold bind at 1.
  pose proof (add_bubble_world m acc w) as Hw.
  destruct (add_bubble m acc w) as [[acc'|e] w1]; simpl in Hw; subst.
  - apply IH.
  - reflexivity.
Qed.

Lemma well_formed_user c : well_formed (user_message c).
Proof. split; eexists; unfold user_message; by simplify_map_eq. Qed.

Lemma well_formed_assistant c : well_formed (assistant_message c).
Proof. split; eexists; unfold assistant_message; by simplify_map_eq. Qed.

End Loops.

(** ** Model Gateway *)

Section Gateway.

Context (L : Lib) (app : App).

Lemma gateway_unset conversation w :
  truthy_opt (SERVING_ENDPOINT app) = false →
  call_databricks_model L app conversation w
  = (Ok (VStr endpoint_unset_message), w).
Proof. unfold call_databricks_model. by intros ->. Qed.

(** With the endpoint set and well-formed messages, one request leaves
    and the answer decides the text. *)
Lemma gateway_configured conversation w :
  truthy_opt (SERVING_ENDPOINT app) = true →
  Forall well_formed conversation →
  call_databricks_model L app conversation w
  = (Ok (reply_text (serving_query L (sent w)
                       (gateway_request app conversation))),
     {| sent := sent w ++ [gateway_request app conversation];
        reads := reads w |}).
Proof.
  intros E F. unfold call_databricks_model. rewrite E. simpl.
  unfold try_except, bind at 1. rewrite for_in_chat by done.
  unfold bind, query, reply_text, append, gateway_request, system_message.
  simpl.
  destruct (serving_query L _ _) as [[[| |[|[[m|]] cs]]]|e]; reflexivity.
Qed.

(** A dict without a key is reported like a failed call, and nothing is
    sent. *)
Lemma gateway_malformed conversation w :
  truthy_opt (SERVING_ENDPOINT app) = true →
  ¬ Forall well_formed conversation →
  ∃ e, call_databricks_model L app conversation w
       = (Ok (VStr (lit "Error calling model: " ++ exn_str e)), w).
Proof.
  intros E NF. unfold call_databricks_model. rewrite E. simpl.
  unfold try_except, bind at 1.
  destruct (for_in_chat_raise conversation
              [{| cm_role := SYSTEM;
                  cm_content := VStr (SYSTEM_PROMPT app) |}]
              w NF) as [e ->].
  by exists e.
Qed.

(** In every case the gateway returns: it never raises. *)
Lemma gateway_total conversation w :
  ∃ reply w',
    call_databricks_model L app conversation w = (Ok reply, w').
Proof.
  destruct (truthy_opt (SERVING_ENDPOINT app)) eqn:E.
  - destruct (decide (Forall well_formed conversation)) as [F|NF].
    + eexists _, _. by apply gateway_configured.
    + destruct (gateway_malformed conversation w E NF) as [e He]. eauto.
  - eexists _, _. by apply gateway_unset.
Qed.

Lemma gateway_reads conversation w :
  reads (snd (call_databricks_model L app conversation w)) = reads w.
Proof.
  destruct (truthy_opt (SERVING_ENDPOINT app)) eqn:E.
  - destruct (decide (Forall well_formed conversation)) as [F|NF].
    + by rewrite gateway_configured.
    + destruct (gateway_malformed conversation w E NF) as [e ->]. done.
  - by rewrite gateway_unset.
Qed.

End Gateway.

(** C1 (as amended): for every conversation input, dicts without the
    expected keys included, [call_databricks_model] returns and never
    raises.  With the endpoint unset the result is the configuration
    message.  With the endpoint set and a well-formed conversation:
    a failed remote call gives "Error calling model: <message>"; a
    response without a [choices] attribute or with an empty list of choices
    gives the fallback message; a response whose [choices] is [None], or
    whose first choice has no message, is reported like a failed call; any
    other response gives the [content] of the message of its first choice
    as it is.  The result is a non-empty text in every case but that last
    one, where it is empty or [None] exactly when that content is. *)
Theorem gateway_returns_text (L : Lib) (app : App)
    (conversation : list message_dict) (w : World) :
  ∃ result w',
    call_databricks_model L app conversation w = (Ok result, w')
    ∧ (truthy_opt (SERVING_ENDPOINT app) = false →
       result = VStr endpoint_unset_message)
    ∧ (truthy_opt (SERVING_ENDPOINT app) = true →
       Forall well_formed conversation →
       let outcome :=
         serving_query L (sent w) (gateway_request app conversation) in
       (∀ e, outcome = Raise e →
             result = VStr (lit "Error calling model: " ++ exn_str e))
       ∧ (∀ response, outcome = Ok response →
             choices response = Absent ∨ choices response = Value [] →
             result = VStr fallback_message)
       ∧ (∀ response, outcome = Ok response →
             choices response = IsNone →
             result
             = VStr (lit "Error calling model: "
                     ++ lit "object of type 'NoneType' has no len()"))
       ∧ (∀ response c cs, outcome = Ok response →
             choices response = Value (c :: cs) →
             message c = None →
             result
             = VStr (lit "Error calling model: "
                     ++ lit "'NoneType' object has no attribute 'content'"))
       ∧ (∀ response c cs m, outcome = Ok response →
             choices response = Value (c :: cs) →
             message c = Some m →
             result = cm_content m))
    ∧ (result = VNone ∨ result = VStr [] →
       truthy_opt (SERVING_ENDPOINT app) = true
       ∧ Forall well_formed conversation
       ∧ ∃ response c cs m,
           serving_query L (sent w) (gateway_request app conversation)
           = Ok response
           ∧ choices response = Value (c :: cs)
           ∧ message c = Some m
           ∧ cm_content m = result).
Proof.
  destruct (truthy_opt (SERVING_ENDPOINT app)) eqn:E.
  - destruct (decide (Forall well_formed conversation)) as [F|NF].
    + eexists _, _. split; [by apply gateway_configured|].
      split; [done|]. split.
      * intros _ _. cbv zeta. repeat split.
        -- by intros e ->.
        -- intros response -> [H|H]; simpl; by rewrite H.
        -- intros response -> H. simpl. by rewrite H.
        -- intros response c cs -> H Hm. simpl. by rewrite H, Hm.
        -- intros response c cs m -> H Hm. simpl. by rewrite H, Hm.
      * intros Hnil. split; [done|]. split; [done|].
        destruct (serving_query L (sent w) (gateway_request app conversation))
          as [[[| |[|[[m|]] cs]]]|e]; simpl in Hnil;
          try (destruct Hnil as [Hnil|Hnil]; discriminate Hnil).
        by exists {| choices := Value ({| message := Some m |} :: cs) |},
             {| message := Some m |}, cs, m.
    + destruct (gateway_malformed L app conversation w E NF) as [e He].
      eexists _, _. split; [exact He|].
      split; [done|]. split; [done|].
      intros [Hnil|Hnil]; discriminate Hnil.
  - eexists _, _. split; [by apply gateway_unset|].
    split; [done|]. split; [done|].
    intros [Hnil|Hnil]; discriminate Hnil.
Qed.

(** C1 as stated fails in three ways.  An endpoint whose first choice has
    empty content makes the gateway return the empty text; one whose first
    choice has no content makes it return [None], which is no text; and a
    response whose [choices] is [None] has no choices, yet the result is
    an error text and not the fallback message. *)
Lemma gateway_empty_text_counterexample :
  fst (call_databricks_model
         (Canned.endpoint (Canned.reply_with []))
         (Canned.app (Some (lit "claude")))
         [user_message (lit "Describe this dataset")]
         Canned.world)
  = Ok (VStr [])
  ∧ fst (call_databricks_model
           (Canned.endpoint (Canned.reply_of VNone))
           (Canned.app (Some (lit "claude")))
           [user_message (lit "Describe this dataset")]
           Canned.world)
    = Ok VNone
  ∧ fst (call_databricks_model
           (Canned.endpoint (Ok {| choices := IsNone |}))
           (Canned.app (Some (lit "claude")))
           [user_message (lit "Describe this dataset")]
           Canned.world)
    = Ok (VStr (lit "Error calling model: object of type 'NoneType' has no len()"))
  ∧ VStr (lit "Error calling model: object of type 'NoneType' has no len()")
    ≠ VStr fallback_message.
Proof.
  split; [vm_compute; reflexivity|].
  split; [vm_compute; reflexivity|].
  split; [vm_compute; reflexivity|].
  vm_compute. discriminate.
Qed.

(** C3: with the endpoint configured, the call sends exactly one request;
    it names the endpoint, carries [max_tokens = 2000], and its message
    list is the system message followed by one message per message of the
    conversation, in the same order, each with the same content and with
    the role [USER] for 'user' and [ASSISTANT] otherwise. *)
Theorem gateway_sends_full_history (L : Lib) (app : App)
    (conversation : list message_dict) (w : World) :
  truthy_opt (SERVING_ENDPOINT app) = true →
  Forall well_formed conversation →
  ∃ request,
    sent (snd (call_databricks_model L app conversation w))
    = sent w ++ [request]
    ∧ SERVING_ENDPOINT app = Some (req_name request)
    ∧ req_max_tokens request = 2000%Z
    ∧ req_messages request
      = {| cm_role := SYSTEM; cm_content := VStr (SYSTEM_PROMPT app) |}
        :: map chat_message_of conversation
    ∧ length (req_messages request) = S (length conversation)
    ∧ ∀ i m, conversation !! i = Some m →
        ∃ cm, req_messages request !! S i = Some cm
              ∧ m !! "content" = Some (cm_content cm)
              ∧ cm_role cm ≠ SYSTEM
              ∧ (m !! "role" = Some (VStr (lit "user")) → cm_role cm = USER)
              ∧ (m !! "role" = Some (VStr (lit "assistant")) →
                 cm_role cm = ASSISTANT).
Proof.
  intros E F. exists (gateway_request app conversation).
  rewrite gateway_configured by done. simpl.
  split; [done|]. split.
  - destruct (SERVING_ENDPOINT app); [done|discriminate E].
  - split; [done|]. split; [done|]. split; [by rewrite length_map|].
    intros i m Hm. exists (chat_message_of m).
    split; [by rewrite list_lookup_fmap, Hm|].
    rewrite Forall_forall in F.
    destruct (F m) as [[r Hr] [c Hc]]; [by eapply list_elem_of_lookup_2|].
    unfold chat_message_of. rewrite Hr, Hc. simpl.
    split; [done|]. split; [by destruct (bool_decide (r = VStr (lit "user")))|].
    split; intros [= ->]; reflexivity.
Qed.

Lemma gateway_sends_full_history_witness :
  ∃ request,
    sent (snd (call_databricks_model
                 (Canned.endpoint (Canned.reply_with (lit "A table.")))
                 (Canned.app (Some (lit "claude")))
                 Canned.two_messages Canned.world))
    = [request]
    ∧ length (req_messages request) = 3.
Proof.
  destruct (gateway_sends_full_history
              (Canned.endpoint (Canned.reply_with (lit "A table.")))
              (Canned.app (Some (lit "claude")))
              Canned.two_messages Canned.world)
    as (request & Hs & _ & _ & _ & Hl & _).
  - reflexivity.
  - repeat constructor; apply well_formed_user || apply well_formed_assistant.
  - exists request. split; [exact Hs|exact Hl].
Defined.

(** C8: with the endpoint not configured ([None] or the empty string),
    the call returns, for any conversation, a text that contains
    "DATABRICKS_SERVING_ENDPOINT"; nothing is raised and the world is as
    before, so no request was sent. *)
Theorem gateway_endpoint_unset (L : Lib) (app : App)
    (conversation : list message_dict) (w : World) :
  truthy_opt (SERVING_ENDPOINT app) = false →
  ∃ text,
    call_databricks_model L app conversation w = (Ok (VStr text), w)
    ∧ contains (lit "DATABRICKS_SERVING_ENDPOINT") text.
Proof.
  intros E. exists endpoint_unset_message.
  split; [by apply gateway_unset|].
  exists (lit "Error: "),
    (lit " is not set. "
     ++ lit "Add it to your .env file for local development, or ensure the app is deployed with a serving endpoint resource.").
  vm_compute. reflexivity.
Qed.

Lemma gateway_endpoint_unset_witness :
  ∃ text,
    call_databricks_model (Canned.endpoint Canned.refused)
      (Canned.app None) [] Canned.world
    = (Ok (VStr text), Canned.world)
    ∧ contains (lit "DATABRICKS_SERVING_ENDPOINT") text.
Proof.
  apply (gateway_endpoint_unset (Canned.endpoint Canned.refused)
           (Canned.app None) [] Canned.world).
  reflexivity.
Defined.

(** ** File Sampler *)

Section Sampler.

Context (L : Lib).

(** The [except] clause makes the function total. *)
Lemma sampler_total contents filename :
  ∃ text, parse_file_content L contents filename = Ok text.
Proof.
  unfold parse_file_content, try_except_res.
  destruct (parse_file_body L contents filename); eauto.
Qed.

Lemma sampler_handles contents filename e :
  parse_file_body L contents filename = Raise e →
  parse_file_content L contents filename
  = Ok (lit "Error parsing file: " ++ exn_str e).
Proof. unfold parse_file_content. by intros ->. Qed.

Lemma sampler_passes contents filename preview :
  parse_file_body L contents filename = Ok preview →
  parse_file_content L contents filename = Ok preview.
Proof. unfold parse_file_content. by intros ->. Qed.

(** Once the data URL is unpacked and the base64 text decoded, the
    extension of the file name chooses the branch. *)
Lemma sampler_decoded contents filename content_type content_string decoded :
  split 44 contents = [content_type; content_string] →
  b64decode L content_string = Ok decoded →
  parse_file_body L contents filename
  = (if endswith filename (lit ".csv") then
     let? text := decode_utf8 L decoded in
     let? df := read_csv L text in
     Ok (lit "File: " ++ filename ++ nl
         ++ lit "Sample data (first 10 rows):" ++ nl ++ nl
         ++ to_string L (head 10 df))
   else if endswith_any filename [lit ".xlsx"; lit ".xls"] then
     let? df := read_excel L decoded in
     Ok (lit "File: " ++ filename ++ nl
         ++ lit "Sample data (first 10 rows):" ++ nl ++ nl
         ++ to_string L (head 10 df))
   else if endswith filename (lit ".json") then
     let? text := decode_utf8 L decoded in
     let? data := json_loads L text in
     Ok (lit "File: " ++ filename ++ nl
         ++ lit "Sample data:" ++ nl ++ nl
         ++ match data with
            | JList items => json_dumps L (JList (take 10 items)) 2
            | _ => json_dumps L data 2
            end)
   else
     let? text := decode_utf8 L decoded in
     Ok (lit "File: " ++ filename ++ nl
         ++ lit "Sample data (first 10 lines):" ++ nl ++ nl
         ++ join (chr 10) (take 10 (split 10 text))))%res.
Proof.
  intros Hs Hb. unfold parse_file_body. rewrite Hs. simpl.
  rewrite Hb. reflexivity.
Qed.

Lemma unpack2_ok parts a b : unpack2 parts = Ok (a, b) → parts = [a; b].
Proof.
  destruct parts as [|x [|y [|z rest]]]; simpl; intros E; by simplify_eq.
Qed.

(** The failures listed by [sampler_failure] are the ways the body of the
    [try] raises. *)
Lemma sampler_failure_raises contents filename e :
  sampler_failure L contents filename e →
  parse_file_body L contents filename = Raise e.
Proof.
  intros [Hu|ct cs Hs Hb|ct cs d Hs Hb Hx Hd|ct cs d t Hs Hb Hc Hd Hp
          |ct cs d Hs Hb Hx Hp|ct cs d t Hs Hb Hj Hd Hp].
  - unfold parse_file_body. by rewrite Hu.
  - unfold parse_file_body. rewrite Hs. simpl. by rewrite Hb.
  - rewrite (sampler_decoded _ _ _ _ _ Hs Hb), Hx.
    destruct (endswith filename (lit ".csv")); simpl.
    + by rewrite Hd.
    + destruct (endswith filename (lit ".json")); simpl; by rewrite Hd.
  - rewrite (sampler_decoded _ _ _ _ _ Hs Hb), Hc. simpl.
    rewrite Hd. simpl. by rewrite Hp.
  - rewrite (sampler_decoded _ _ _ _ _ Hs Hb), Hx.
    rewrite (excel_not_csv _ Hx). simpl. by rewrite Hp.
  - rewrite (sampler_decoded _ _ _ _ _ Hs Hb), Hj.
    rewrite (json_not_csv _ Hj), (json_not_excel _ Hj). simpl.
    rewrite Hd. simpl. by rewrite Hp.
Qed.

Lemma sampler_raises_failure contents filename e :
  parse_file_body L contents filename = Raise e →
  sampler_failure L contents filename e.
Proof.
  intros E.
  destruct (unpack2 (split 44 contents)) as [[ct cs]|e0] eqn:Hu.
  - apply unpack2_ok in Hu as Hs.
    destruct (b64decode L cs) as [d|e1] eqn:Hb.
    + rewrite (sampler_decoded _ _ _ _ _ Hs Hb) in E.
      destruct (endswith filename (lit ".csv")) eqn:Hc.
      * destruct (decode_utf8 L d) as [t|e2] eqn:Hd; simpl in E.
        -- destruct (read_csv L t) as [df|e3] eqn:Hp; simpl in E;
             simplify_eq. by eapply fail_csv.
        -- simplify_eq. eapply fail_utf8; eauto.
           destruct (endswith_any filename _) eqn:Hx; [|done].
           apply excel_not_csv in Hx. congruence.
      * destruct (endswith_any filename [lit ".xlsx"; lit ".xls"]) eqn:Hx.
        -- destruct (read_excel L d) as [df|e3] eqn:Hp; simpl in E;
             simplify_eq. by eapply fail_excel.
        -- destruct (endswith filename (lit ".json")) eqn:Hj.
           ++ destruct (decode_utf8 L d) as [t|e2] eqn:Hd; simpl in E.
              ** destruct (json_loads L t) as [v|e3] eqn:Hp; simpl in E;
                   simplify_eq. by eapply fail_json.
              ** simplify_eq. by eapply fail_utf8.
           ++ destruct (decode_utf8 L d) as [t|e2] eqn:Hd; simpl in E;
                simplify_eq. by eapply fail_utf8.
    + unfold parse_file_body in E. rewrite Hs in E. simpl in E.
      rewrite Hb in E. simpl in E. simplify_eq. by eapply fail_base64.
  - unfold parse_file_body in E. rewrite Hu in E. simpl in E.
    simplify_eq. by apply fail_unpack.
Qed.

End Sampler.

(** C2: whenever decoding or parsing the upload fails with an exception
    [e] (the data URL, the base64 text, the UTF-8 bytes, or the tabular or
    JSON content is rejected), [parse_file_content] does not raise: it
    returns "Error parsing file: " followed by [str(e)]. *)
Theorem sampler_reports_failure (L : Lib) (contents filename : str)
    (e : exn) :
  sampler_failure L contents filename e →
  ∃ text,
    parse_file_content L contents filename = Ok text
    ∧ text = lit "Error parsing file: " ++ exn_str e
    ∧ lit "Error parsing file:" `prefix_of` text.
Proof.
  intros Hf. eexists. split; [|split; [reflexivity|]].
  - by apply sampler_handles, sampler_failure_raises.
  - by exists (lit " " ++ exn_str e).
Qed.

Lemma sampler_reports_failure_witness :
  ∃ text,
    parse_file_content
      (Canned.upload (Ok []) (Ok (lit "[1, 2"))
         Canned.refused
         (Raise (Exn "JSONDecodeError" (lit "Expecting ',' delimiter"))))
      (lit "data:application/json;base64,WzEsIDI=") (lit "rows.json")
    = Ok text
    ∧ text = lit "Error parsing file: " ++ lit "Expecting ',' delimiter"
    ∧ lit "Error parsing file:" `prefix_of` text.
Proof.
  apply (sampler_reports_failure
           (Canned.upload (Ok []) (Ok (lit "[1, 2")) Canned.refused
              (Raise (Exn "JSONDecodeError" (lit "Expecting ',' delimiter"))))
           (lit "data:application/json;base64,WzEsIDI=") (lit "rows.json")
           (Exn "JSONDecodeError" (lit "Expecting ',' delimiter"))).
  eapply fail_json; reflexivity.
Defined.

(** ** What [json.dumps] prints *)

Module PyJsonFacts.
Import PyJson.

Lemma ws_nil : ws [].
Proof. constructor. Qed.

Lemma ws_newline_indent indent level : ws (newline_indent indent level).
Proof.
  unfold newline_indent. constructor; [reflexivity|].
  by apply Forall_replicate.
Qed.

(** *** Strings *)

Lemma json_chars_app a b : json_chars a → json_chars b → json_chars (a ++ b).
Proof.
  induction 1; intros Hb; rewrite <- ?app_comm_cons;
    [done|by apply jc_plain; auto|by apply jc_escape; auto
    |by apply jc_unicode; auto].
Qed.

Lemma hex_digit_ok n : (n < 16)%N → is_hex (hex_digit n) = true.
Proof.
  intros Hn. unfold is_hex, is_digit, hex_digit.
  destruct (N.ltb_spec n 10).
  - apply orb_true_iff; left. apply orb_true_iff; left.
    apply andb_true_iff; split; apply N.leb_le; lia.
  - apply orb_true_iff; left. apply orb_true_iff; right.
    apply andb_true_iff; split; apply N.leb_le; lia.
Qed.

Lemma unicode_escape_chars n rest :
  json_chars rest → json_chars (92%N :: 117%N :: hex4 n ++ rest).
Proof.
  intros Hr. unfold hex4.
  apply jc_unicode; [..|exact Hr]; apply hex_digit_ok;
    by apply N.mod_lt.
Qed.

Lemma escape_char_chars c : json_chars (escape_char c).
Proof.
  unfold escape_char.
  repeat (case N.eqb_spec;
          [intros _; by apply jc_escape; [reflexivity|constructor]
          |intros ?]).
  destruct (_ && _) eqn:Hp.
  - apply jc_plain; [|constructor].
    apply andb_true_iff in Hp as [Hlo _].
    unfold is_unescaped. rewrite Hlo. simpl.
    apply andb_true_iff; split; apply negb_true_iff, N.eqb_neq; done.
  - destruct (_ <? _)%N.
    + rewrite <- (app_nil_r (hex4 c)).
      apply unicode_escape_chars. constructor.
    + apply (json_chars_app (_ :: _ :: hex4 _) (_ :: _ :: hex4 _)).
      * rewrite <- (app_nil_r (hex4 _)).
        apply unicode_escape_chars. constructor.
      * rewrite <- (app_nil_r (hex4 _)).
        apply unicode_escape_chars. constructor.
Qed.

Lemma escaped_chars s : json_chars (concat (map escape_char s)).
Proof.
  induction s as [|c s IH]; [constructor|].
  simpl. by apply json_chars_app; [apply escape_char_chars|].
Qed.

Lemma quote_value s : json_value (quote s).
Proof. apply jv_string, escaped_chars. Qed.

(** *** Numbers *)

Lemma skip_digit_codes u : skip_digits (digit_codes u) = [].
Proof. induction u; simpl; done. Qed.

Lemma digit_codes_number u :
  u ≠ Decimal.Nil → (∀ u', u ≠ Decimal.D0 u') →
  is_number (digit_codes u) = true.
Proof.
  intros Hnil H0.
  destruct u as [|u|u|u|u|u|u|u|u|u|u]; [done|by destruct (H0 u)|..];
    unfold is_number; simpl; by rewrite skip_digit_codes.
Qed.

(** The decimal digits of a positive number: at least one, and the first
    is not 0. *)
Lemma to_uint_head p u' : Pos.to_uint p ≠ Decimal.D0 u'.
Proof.
  intros E.
  pose proof (DecimalPos.Unsigned.to_of (Pos.to_uint p)) as Hn.
  rewrite DecimalPos.Unsigned.of_to in Hn.
  change (N.to_uint (N.pos p)) with (Pos.to_uint p) in Hn.
  rewrite E in Hn. unfold Decimal.unorm in Hn.
  change (Decimal.nzhead (Decimal.D0 u')) with (Decimal.nzhead u') in Hn.
  destruct (Decimal.nzhead u') eqn:Hz;
    try (by apply (DecimalFacts.nzhead_nonzero u' u'); congruence).
  apply (DecimalPos.Unsigned.to_uint_nonzero p). by rewrite E, Hn.
Qed.

Lemma int_text_number n : is_number (int_text n) = true.
Proof.
  destruct n as [|p|p]; [reflexivity|..].
  - apply digit_codes_number;
      [apply DecimalPos.Unsigned.to_uint_nonnil|intros; apply to_uint_head].
  - pose proof (digit_codes_number (Pos.to_uint p)
                  (DecimalPos.Unsigned.to_uint_nonnil p)
                  (to_uint_head p)) as Hd.
    unfold int_text, is_number in *. simpl.
    destruct (digit_codes (Pos.to_uint p)) as [|d r] eqn:Hu; [done|].
    destruct (N.eqb_spec d 45); [|done].
    subst d. exfalso. clear Hd.
    destruct (Pos.to_uint p); simpl in Hu; congruence.
Qed.

(** The [repr] of a float that is a number is printed as it is. *)
Lemma float_text_number repr :
  is_number repr = true → float_text repr = repr.
Proof.
  intros Hn. unfold float_text.
  repeat (case_bool_decide; [subst repr; by vm_compute in Hn|]).
  reflexivity.
Qed.

(** *** Arrays and objects *)

(** Two concatenations of the same pieces. *)
Ltac flatten_app :=
  change (lit ": ") with [58%N; 32%N];
  repeat (rewrite <- app_assoc || rewrite <- app_comm_cons
          || rewrite app_nil_l);
  reflexivity.

Lemma elements_joined n1 n2 v vs :
  ws n1 → ws n2 → Forall json_value (v :: vs) →
  json_elements (n1 ++ join (44%N :: n1) (v :: vs) ++ n2).
Proof.
  intros H1 H2. revert v.
  induction vs as [|v' vs IH]; intros v Hv.
  - apply Forall_cons in Hv as [Hv _]. by apply je_last.
  - apply Forall_cons in Hv as [Hv Hvs].
    change (join (44%N :: n1) (v :: v' :: vs))
      with (v ++ (44%N :: n1) ++ join (44%N :: n1) (v' :: vs)).
    replace (n1 ++ (v ++ (44%N :: n1) ++ join (44%N :: n1) (v' :: vs)) ++ n2)
      with (n1 ++ v ++ [] ++ 44%N :: (n1 ++ join (44%N :: n1) (v' :: vs) ++ n2))
      by flatten_app.
    apply je_more; [done|done|apply ws_nil|by apply IH].
Qed.

Lemma members_joined n1 n2 (kv : str * str) kvs :
  ws n1 → ws n2 → Forall (λ kv, json_value kv.2) (kv :: kvs) →
  json_members
    (n1 ++ join (44%N :: n1)
             (map (λ kv, quote kv.1 ++ lit ": " ++ kv.2) (kv :: kvs))
     ++ n2).
Proof.
  intros H1 H2. revert kv.
  assert (Hsp : ws [32%N]) by (by constructor).
  induction kvs as [|kv' kvs IH]; intros [k v] Hv.
  - apply Forall_cons in Hv as [Hv _].
    change (json_members (n1 ++ (quote k ++ lit ": " ++ v) ++ n2)).
    replace (n1 ++ (quote k ++ lit ": " ++ v) ++ n2)
      with (n1 ++ (34%N :: concat (map escape_char k) ++ [34%N]) ++ []
            ++ 58%N :: [32%N] ++ v ++ n2)
      by (unfold quote; flatten_app).
    apply jm_last; auto using ws_nil, escaped_chars.
  - apply Forall_cons in Hv as [Hv Hvs].
    specialize (IH kv' Hvs). revert IH.
    change (join (44%N :: n1)
              (map (λ kv, quote kv.1 ++ lit ": " ++ kv.2)
                 ((k, v) :: kv' :: kvs)))
      with ((quote k ++ lit ": " ++ v) ++ (44%N :: n1)
            ++ join (44%N :: n1)
                 (map (λ kv, quote kv.1 ++ lit ": " ++ kv.2) (kv' :: kvs))).
    generalize (join (44%N :: n1)
                  (map (λ kv, quote kv.1 ++ lit ": " ++ kv.2) (kv' :: kvs))).
    intros j IH.
    replace (n1 ++ ((quote k ++ lit ": " ++ v) ++ (44%N :: n1) ++ j) ++ n2)
      with (n1 ++ (34%N :: concat (map escape_char k) ++ [34%N]) ++ []
            ++ 58%N :: [32%N] ++ v ++ [] ++ 44%N :: (n1 ++ j ++ n2))
      by (unfold quote; flatten_app).
    apply jm_more; auto using ws_nil, escaped_chars.
Qed.

(** Induction on a JSON value, with the elements of a list and the
    values of a dict as smaller values. *)
Lemma json_nested_ind (P : json → Prop) :
  P JNull → (∀ b, P (JBool b)) → (∀ n, P (JInt n)) →
  (∀ repr, P (JFloat repr)) → (∀ s, P (JStr s)) →
  (∀ items, Forall P items → P (JList items)) →
  (∀ items, Forall (λ item, P item.2) items → P (JDict items)) →
  ∀ data, P data.
Proof.
  intros Hnull Hbool Hint Hfloat Hstr Hlist Hdict.
  fix IH 1. intros [|b|n|repr|s|items|items].
  - exact Hnull.
  - apply Hbool.
  - apply Hint.
  - apply Hfloat.
  - apply Hstr.
  - apply Hlist. induction items as [|x items IHitems]; constructor.
    + apply IH.
    + exact IHitems.
  - apply Hdict. induction items as [|[k x] items IHitems]; constructor.
    + apply IH.
    + exact IHitems.
Qed.

(** At every depth the encoder prints a JSON value, provided every float
    prints as a number. *)
Lemma encode_value indent data :
  finite data = true → ∀ level, json_value (encode indent level data).
Proof.
  induction data as [|b|n|repr|s|items IH|items IH] using json_nested_ind;
    intros Hf level.
  - apply jv_null.
  - destruct b; [apply jv_true|apply jv_false].
  - apply jv_number, int_text_number.
  - cbn [encode]. rewrite float_text_number by exact Hf.
    by apply jv_number.
  - apply quote_value.
  - destruct items as [|x items].
    + apply (jv_array_empty []), ws_nil.
    + cbn [encode finite] in *.
      change (lit "[") with [91%N]. change (lit "]") with [93%N].
      change (lit ",") with [44%N].
      replace ([91%N] ++ newline_indent indent (S level)
               ++ join ([44%N] ++ newline_indent indent (S level))
                    (map (encode indent (S level)) (x :: items))
               ++ newline_indent indent level ++ [93%N])
        with (91%N :: (newline_indent indent (S level)
                       ++ join (44%N :: newline_indent indent (S level))
                            (map (encode indent (S level)) (x :: items))
                       ++ newline_indent indent level) ++ [93%N])
        by flatten_app.
      apply jv_array.
      apply (elements_joined _ _ (encode indent (S level) x)
               (map (encode indent (S level)) items));
        [apply ws_newline_indent..|].
      change (Forall json_value (map (encode indent (S level)) (x :: items))).
      apply Forall_map.
      apply Is_true_true, forallb_True in Hf.
      eapply Forall_impl; [apply Forall_and; split; [exact IH|exact Hf]|].
      intros y [Hy Hfy]. apply Hy. by apply Is_true_true.
  - destruct items as [|x items].
    + apply (jv_object_empty []), ws_nil.
    + cbn [encode finite] in *.
      change (lit "{") with [123%N]. change (lit "}") with [125%N].
      change (lit ",") with [44%N].
      set (texts := map (λ item, (item.1, encode indent (S level) item.2))
                      (x :: items)).
      replace (map (λ item, quote item.1 ++ lit ": "
                            ++ encode indent (S level) item.2) (x :: items))
        with (map (λ kv : str * str, quote kv.1 ++ lit ": " ++ kv.2) texts)
        by (unfold texts; rewrite map_map; reflexivity).
      replace ([123%N] ++ newline_indent indent (S level)
               ++ join ([44%N] ++ newline_indent indent (S level))
                    (map (λ kv : str * str, quote kv.1 ++ lit ": " ++ kv.2)
                       texts)
               ++ newline_indent indent level ++ [125%N])
        with (123%N :: (newline_indent indent (S level)
                        ++ join (44%N :: newline_indent indent (S level))
                             (map (λ kv : str * str,
                                     quote kv.1 ++ lit ": " ++ kv.2) texts)
                        ++ newline_indent indent level) ++ [125%N])
        by flatten_app.
      apply jv_object.
      apply (members_joined _ _ (x.1, encode indent (S level) x.2)
               (map (λ item, (item.1, encode indent (S level) item.2))
                  items));
        [apply ws_newline_indent..|].
      change (Forall (λ kv : str * str, json_value kv.2) texts).
      unfold texts. apply Forall_map.
      apply Is_true_true, forallb_True in Hf.
      eapply Forall_impl; [apply Forall_and; split; [exact IH|exact Hf]|].
      intros y [Hy Hfy]. apply Hy. by apply Is_true_true.
Qed.

(** [json.dumps(data, indent=n)] is a JSON text when no float of [data]
    is infinite or [nan]. *)
Lemma dumps_valid data indent :
  finite data = true → valid_json (dumps data indent).
Proof.
  intros Hf. exists [], (dumps data indent), [].
  rewrite app_nil_r. split; [done|].
  split; [apply ws_nil|split; [by apply encode_value|apply ws_nil]].
Qed.

(** The encoder on a list that has one value of every kind. *)
Example dumps_example :
  dumps (JList [JDict [(lit "id", JInt 1)]; JFloat (lit "1.5"); JStr [233%N];
                JInt (-12); JStr [127%N]; JStr [128512%N]; JList [];
                JDict []; JNull; JBool true]) 2
  = lit "[" ++ nl
    ++ lit "  {" ++ nl
    ++ lit "    " ++ [34%N] ++ lit "id" ++ [34%N] ++ lit ": 1" ++ nl
    ++ lit "  }," ++ nl
    ++ lit "  1.5," ++ nl
    ++ lit "  " ++ [34%N] ++ lit "\u00e9" ++ [34%N] ++ lit "," ++ nl
    ++ lit "  -12," ++ nl
    ++ lit "  " ++ [34%N] ++ lit "\u007f" ++ [34%N] ++ lit "," ++ nl
    ++ lit "  " ++ [34%N] ++ lit "\ud83d\ude00" ++ [34%N] ++ lit "," ++ nl
    ++ lit "  []," ++ nl
    ++ lit "  {}," ++ nl
    ++ lit "  null," ++ nl
    ++ lit "  true" ++ nl
    ++ lit "]".
Proof. vm_compute. reflexivity. Qed.

(** *** Texts that are not JSON *)

Lemma value_start_not_ws c : value_start c = true → is_ws c = false.
Proof.
  unfold value_start, is_ws, is_digit. intros H.
  repeat (apply orb_true_iff in H as [H|H]);
    try (apply N.eqb_eq in H; by subst c).
  apply andb_true_iff in H as [Hlo Hhi]. apply N.leb_le in Hlo.
  repeat (apply orb_false_iff; split); apply N.eqb_neq; lia.
Qed.

Lemma skip_ws_start w c rest :
  ws w → is_ws c = false → skip_ws (w ++ c :: rest) = c :: rest.
Proof.
  intros Hw Hc. induction Hw as [|d w Hd _ IH]; simpl.
  - by rewrite Hc.
  - by rewrite Hd.
Qed.

Lemma number_start s :
  is_number s = true → ∃ c rest, s = c :: rest ∧ value_start c = true.
Proof.
  intros Hn. destruct s as [|c rest]; [done|].
  exists c, rest. split; [done|].
  unfold is_number in Hn. unfold value_start.
  destruct (N.eqb_spec c 45) as [->|Hm]; [reflexivity|].
  destruct (N.eqb_spec c 48) as [->|Hz]; [reflexivity|].
  destruct (is_digit c); [|done].
  by rewrite !orb_true_r.
Qed.

(** A value starts with the first character of a literal, a number, a
    string, an array or an object. *)
Lemma value_first v :
  json_value v → ∃ c rest, v = c :: rest ∧ value_start c = true.
Proof.
  intros [| | |s Hs|body _|w _|elements _|w _|members _];
    try (by eexists _, _; split; [reflexivity|reflexivity]).
  by apply number_start.
Qed.

Lemma elements_first elements :
  json_elements elements →
  ∃ w c rest, elements = w ++ c :: rest ∧ ws w ∧ value_start c = true.
Proof.
  intros [w1 v w2 H1 Hv _|w1 v w2 rest H1 Hv _ _];
    apply value_first in Hv as (c & r & -> & Hc);
    exists w1, c; eexists; (split; [|done]);
    rewrite <- app_comm_cons; reflexivity.
Qed.

(** After the white space that leads it, a JSON text starts like a
    value. *)
Lemma valid_json_start s :
  valid_json s → ∃ c rest, skip_ws s = c :: rest ∧ value_start c = true.
Proof.
  intros (w1 & v & w2 & -> & H1 & Hv & _).
  apply value_first in Hv as (c & r & -> & Hc).
  exists c, (r ++ w2). split; [|done].
  rewrite <- app_comm_cons.
  by apply skip_ws_start, value_start_not_ws.
Qed.

(** An array whose first element is not a value is not JSON. *)
Lemma array_not_json c rest :
  value_start c = false → c ≠ 93%N → is_ws c = false →
  ∀ w, ws w → ¬ valid_json (91%N :: w ++ c :: rest).
Proof.
  intros Hc Hclose Hnws w Hw (w1 & v & w2 & E & H1 & Hv & H2).
  pose proof (value_first v Hv) as (d & r & -> & Hd).
  apply (f_equal skip_ws) in E as Hskip.
  change (skip_ws (91%N :: w ++ c :: rest)) with (91%N :: w ++ c :: rest)
    in Hskip.
  rewrite <- app_comm_cons, skip_ws_start in Hskip
    by (done || by apply value_start_not_ws).
  injection Hskip as <- Hr.
  assert (Hbody : skip_ws (r ++ w2) = c :: rest).
  { rewrite <- Hr. by apply skip_ws_start. }
  clear E Hr Hd.
  inversion Hv as [| | |s Hs|body _ E|w' Hw' E|elements He E|w' _ E
                  |members _ E]; simplify_eq.
  - rewrite <- app_assoc in Hbody. simpl in Hbody.
    rewrite skip_ws_start in Hbody by done. by simplify_eq.
  - apply elements_first in He as (w' & d & r' & -> & Hw' & Hd).
    rewrite <- !app_assoc, <- app_comm_cons in Hbody.
    rewrite skip_ws_start in Hbody by (done || by apply value_start_not_ws).
    simplify_eq. congruence.
Qed.

End PyJsonFacts.




(** C6: for a file name ending in ".csv", ".xlsx" or ".xls" whose payload
    parses as a table, the preview is "File: <filename>", the label
    "Sample data (first 10 rows):" and the rendering of [df.head(10)]: a
    frame with the same columns and the first rows of the table, at most
    10 of them. *)
Theorem tabular_preview (L : Lib)
    (contents filename content_type content_string : str)
    (decoded : bytes) (df : DataFrame) :
  split 44 contents = [content_type; content_string] →
  b64decode L content_string = Ok decoded →
  (endswith filename (lit ".csv") = true
   ∧ ∃ text, decode_utf8 L decoded = Ok text ∧ read_csv L text = Ok df)
  ∨ (endswith_any filename [lit ".xlsx"; lit ".xls"] = true
     ∧ read_excel L decoded = Ok df) →
  ∃ preview shown,
    parse_file_content L contents filename = Ok preview
    ∧ preview = lit "File: " ++ filename ++ nl
                ++ lit "Sample data (first 10 rows):" ++ nl ++ nl
                ++ to_string L shown
    ∧ shown = head 10 df
    ∧ df_columns shown = df_columns df
    ∧ df_rows shown `prefix_of` df_rows df
    ∧ length (df_rows shown) = min 10 (length (df_rows df))
    ∧ length (df_rows shown) ≤ 10
    ∧ contains filename preview
    ∧ contains (lit "first 10 rows") preview.
Proof.
  intros Hs Hb Hcase. eexists _, (head 10 df).
  split; [|split; [reflexivity|]].
  - apply sampler_passes. rewrite (sampler_decoded L _ _ _ _ _ Hs Hb).
    destruct Hcase as [[Hc (text & Hd & Hp)]|[Hx Hp]].
    + rewrite Hc. simpl. rewrite Hd. simpl. rewrite Hp. reflexivity.
    + rewrite (excel_not_csv _ Hx), Hx. simpl. rewrite Hp. reflexivity.
  - split; [done|]. split; [done|]. split; [apply prefix_take|].
    change (df_rows (head 10 df)) with (take 10 (df_rows df)).
    rewrite length_take.
    split; [done|]. split; [lia|]. split.
    + apply contains_app_r, contains_app_l, contains_refl.
    + do 3 apply contains_app_r.
      exists (lit "Sample data ("), (lit "):" ++ nl ++ nl
                                     ++ to_string L (head 10 df)).
      reflexivity.
Qed.

Lemma tabular_preview_witness :
  ∃ preview shown,
    parse_file_content
      (Canned.upload (Ok []) (Ok (lit "id"))
         (Ok {| df_columns := [lit "id"];
                df_rows := map (λ n, {| row_label := CInt n;
                                        row_values := [CInt (n * n)] |})
                             (seqZ 0 12) |})
         Canned.refused)
      (lit "data:text/csv;base64,aWQ=") (lit "stations.csv")
    = Ok preview
    ∧ length (df_rows shown) = 10
    ∧ contains (lit "stations.csv") preview.
Proof.
  destruct (tabular_preview
              (Canned.upload (Ok []) (Ok (lit "id"))
                 (Ok {| df_columns := [lit "id"];
                        df_rows := map (λ n, {| row_label := CInt n;
                                                row_values := [CInt (n * n)] |})
                                     (seqZ 0 12) |})
                 Canned.refused)
              (lit "data:text/csv;base64,aWQ=") (lit "stations.csv")
              (lit "data:text/csv;base64") (lit "aWQ=") []
              {| df_columns := [lit "id"];
                 df_rows := map (λ n, {| row_label := CInt n;
                                         row_values := [CInt (n * n)] |})
                              (seqZ 0 12) |})
    as (preview & shown & Hp & _ & _ & _ & _ & Hl & _ & Hc & _).
  - reflexivity.
  - reflexivity.
  - left. split; [reflexivity|]. exists (lit "id"). split; reflexivity.
  - exists preview, shown. split; [exact Hp|]. split; [exact Hl|exact Hc].
Defined.



(** ** Conversation Store and callbacks *)

Section Callbacks.

Context (L : Lib) (app : App).

Lemma foldl_record_turn prior turns :
  foldl record_turn prior turns = prior ++ map turn_message turns.
Proof.
  revert prior. induction turns as [|t ts IH]; intros prior; simpl.
  - by rewrite app_nil_r.
  - rewrite IH. unfold record_turn, append. by rewrite <- app_assoc.
Qed.

Lemma well_formed_snoc2 conversation c1 c2 :
  Forall well_formed conversation →
  Forall well_formed
    (append (append conversation (user_message c1)) (assistant_message c2)).
Proof.
  intros F. unfold append. rewrite !Forall_app. repeat split; [done|..].
  - repeat constructor; apply well_formed_user.
  - repeat constructor; apply well_formed_assistant.
Qed.

(** A message with a visible character goes through one round trip:
    the user message and the reply of the gateway are appended. *)
Lemma send_message_round_trip n message conversation w :
  has_visible_char message →
  Forall well_formed conversation →
  ∃ reply w',
    call_databricks_model L app (conversation ++ [user_message message]) w
    = (Ok reply, w')
    ∧ send_message L app n (Some message) (Some conversation) w
      = (Ok (update (map bubble_of
                       (conversation ++ [user_message message;
                                         assistant_message reply])),
             update [],
             update (conversation ++ [user_message message;
                                      assistant_message reply])),
         w').
Proof.
  intros V F.
  destruct (gateway_total L app (conversation ++ [user_message message]) w)
    as (reply & w' & E).
  exists reply, w'. split; [exact E|].
  unfold send_message. cbn [from_option id].
  rewrite (strip_visible _ V).
  assert (truthy_opt (Some message) = true) as ->.
  { destruct message; [by apply Exists_nil in V|done]. }
  cbn [negb orb]. unfold bind.
  change (append conversation (user_message message))
    with (conversation ++ [user_message message]).
  rewrite E, for_in_bubbles by by apply well_formed_snoc2.
  unfold append. rewrite <- app_assoc. reflexivity.
Qed.

(** An upload goes through the same round trip, with the preview as the
    content of the user message. *)
Lemma handle_file_upload_round_trip contents filename conversation w :
  Forall well_formed conversation →
  ∃ preview reply w',
    parse_file_content L contents filename = Ok preview
    ∧ handle_file_upload L app (Some contents) filename (Some conversation) w
      = (Ok (update (Some preview),
             update (map bubble_of
                       (conversation
                        ++ [user_message
                              (lit "[File uploaded: " ++ filename ++ lit "]"
                               ++ nl ++ nl ++ preview);
                            assistant_message reply])),
             update (conversation
                     ++ [user_message
                           (lit "[File uploaded: " ++ filename ++ lit "]"
                            ++ nl ++ nl ++ preview);
                         assistant_message reply])),
         w').
Proof.
  intros F.
  destruct (sampler_total L contents filename) as [preview Hp].
  destruct (gateway_total L app
              (conversation
               ++ [user_message (lit "[File uploaded: " ++ filename
                                 ++ lit "]" ++ nl ++ nl ++ preview)]) w)
    as (reply & w' & E).
  exists preview, reply, w'. split; [exact Hp|].
  unfold handle_file_upload. rewrite Hp.
  unfold bind, lift. cbn [from_option id].
  match goal with
  | |- context [call_databricks_model L app (append conversation ?m) w] =>
      change (append conversation m) with (conversation ++ [m])
  end.
  rewrite E, for_in_bubbles by by apply well_formed_snoc2.
  unfold append. rewrite <- app_assoc. reflexivity.
Qed.

(** The guard of lines 461-462. *)
Lemma send_message_guard n message conversation w :
  message = None
  ∨ (∃ m, message = Some m ∧ Forall (λ c, isspace c = true) m) →
  send_message L app n message conversation w
  = (Ok (no_update, no_update, no_update), w).
Proof.
  intros [->|(m & -> & B)]; unfold send_message; [done|].
  cbn [from_option id]. rewrite (strip_blank _ B), orb_true_r. reflexivity.
Qed.

End Callbacks.

(** C4 (as amended): the conversation only grows at its end.  Recording
    N user or assistant turns on the empty conversation gives N messages in
    the order recorded, and on any prior conversation leaves the prior
    entries in place.  [send_message] with a typed message that has at
    least one character that is not white space, on a conversation of 2
    messages, returns a conversation of 4: entries 1 and 2 as before,
    entry 3 the user message, entry 4 the reply of the gateway.
    [handle_file_upload] extends the conversation in the same way. *)
Theorem conversation_append_only (L : Lib) (app : App) (turns : list turn)
    (n_clicks : Z) (message contents filename : str)
    (conversation : list message_dict) (w : World) :
  has_visible_char message →
  Forall well_formed conversation →
  length conversation = 2 →
  (length (foldl record_turn [] turns) = length turns
   ∧ (∀ i t, turns !! i = Some t →
             foldl record_turn [] turns !! i = Some (turn_message t))
   ∧ (∀ prior, prior `prefix_of` foldl record_turn prior turns))
  ∧ (∃ reply displayed history w',
       call_databricks_model L app (conversation ++ [user_message message]) w
       = (Ok reply, w')
       ∧ send_message L app n_clicks (Some message) (Some conversation) w
         = (Ok (update displayed, update [], update history), w')
       ∧ length history = 4
       ∧ take 2 history = conversation
       ∧ history !! 2 = Some (user_message message)
       ∧ history !! 3 = Some (assistant_message reply))
  ∧ (∃ preview reply displayed w',
       handle_file_upload L app (Some contents) filename (Some conversation) w
       = (Ok (update (Some preview), update displayed,
              update (conversation
                      ++ [user_message
                            (lit "[File uploaded: " ++ filename ++ lit "]"
                             ++ nl ++ nl ++ preview);
                          assistant_message reply])),
          w')).
Proof.
  intros V F Hlen. split; [|split].
  - rewrite !foldl_record_turn, app_nil_l, length_map.
    split; [done|]. split.
    + intros i t Ht. by rewrite list_lookup_fmap, Ht.
    + intros prior. rewrite foldl_record_turn. by apply prefix_app_r.
  - destruct (send_message_round_trip L app n_clicks message conversation w V F)
      as (reply & w' & E & Hs).
    eexists reply, _, _, w'. split; [exact E|]. split; [exact Hs|].
    destruct conversation as [|m1 [|m2 [|m3 ms]]]; try discriminate Hlen.
    repeat split.
  - destruct (handle_file_upload_round_trip L app contents filename
                conversation w F) as (preview & reply & w' & _ & Hu).
    by eexists preview, reply, _, w'.
Qed.

Lemma conversation_append_only_witness :
  ∃ reply displayed history w',
    send_message (Canned.endpoint (Canned.reply_with (lit "It lists stations.")))
      (Canned.app (Some (lit "claude"))) 1
      (Some (lit "Describe this dataset")) (Some Canned.two_messages)
      Canned.world
    = (Ok (update displayed, update [], update history), w')
    ∧ length history = 4
    ∧ take 2 history = Canned.two_messages
    ∧ history !! 2 = Some (user_message (lit "Describe this dataset"))
    ∧ history !! 3 = Some (assistant_message reply).
Proof.
  destruct (conversation_append_only
              (Canned.endpoint (Canned.reply_with (lit "It lists stations.")))
              (Canned.app (Some (lit "claude")))
              [UserTurn (lit "a"); AssistantTurn (VStr (lit "b"))]
              1 (lit "Describe this dataset")
              (lit "data:text/plain;base64,YQ==") (lit "a.txt")
              Canned.two_messages Canned.world)
    as (_ & (reply & displayed & history & w' & _ & Hs & H4 & H12 & H3 & H4')
        & _).
  - apply Exists_cons_hd. reflexivity.
  - repeat constructor; apply well_formed_user || apply well_formed_assistant.
  - reflexivity.
  - by exists reply, displayed, history, w'.
Defined.

(** C4 as stated fails: a typed message of one space is not empty, and
    [send_message] updates nothing, so the conversation keeps its 2
    entries. *)
Lemma send_space_counterexample :
  lit " " ≠ []
  ∧ send_message (Canned.endpoint (Canned.reply_with (lit "It lists stations.")))
      (Canned.app (Some (lit "claude"))) 1
      (Some (lit " ")) (Some Canned.two_messages) Canned.world
    = (Ok (no_update, no_update, no_update), Canned.world)
  ∧ length (apply_output Canned.two_messages no_update) = 2.
Proof. split; [discriminate|]. split; reflexivity. Qed.

(** C10: when the message is [None], empty, or white space only,
    [send_message] returns [no_update] for the displayed messages, the
    input and the conversation history, whatever they held, and the world
    is as before: the gateway was not called. *)
Theorem send_blank_message_no_update (L : Lib) (app : App) (n_clicks : Z)
    (message : option str) (conversation : option (list message_dict))
    (w : World) :
  message = None
  ∨ (∃ m, message = Some m ∧ Forall (λ c, isspace c = true) m) →
  ∃ displayed input history,
    send_message L app n_clicks message conversation w
    = (Ok (displayed, input, history), w)
    ∧ (∀ shown : list Div, apply_output shown displayed = shown)
    ∧ (∀ typed : str, apply_output typed input = typed)
    ∧ (∀ stored : list message_dict, apply_output stored history = stored).
Proof.
  intros B. exists no_update, no_update, no_update.
  split; [by apply send_message_guard|done].
Qed.

Lemma send_blank_message_no_update_witness :
  ∃ displayed input history,
    send_message (Canned.endpoint (Canned.reply_with (lit "It lists stations.")))
      (Canned.app (Some (lit "claude"))) 3
      (Some (lit " " ++ nl ++ chr 9)) (Some Canned.two_messages) Canned.world
    = (Ok (displayed, input, history), Canned.world)
    ∧ apply_output Canned.two_messages history = Canned.two_messages.
Proof.
  destruct (send_blank_message_no_update
              (Canned.endpoint (Canned.reply_with (lit "It lists stations.")))
              (Canned.app (Some (lit "claude"))) 3
              (Some (lit " " ++ nl ++ chr 9)) (Some Canned.two_messages)
              Canned.world)
    as (displayed & input & history & Hs & _ & _ & Hh).
  - right. exists (lit " " ++ nl ++ chr 9). split; [reflexivity|].
    repeat constructor.
  - exists displayed, input, history. split; [exact Hs|apply Hh].
Defined.

(** ** Start-up *)

Section StartupFacts.

Context (L : Lib) (H : Host).

Lemma load_missing w :
  files H !! prompt_path H = None →
  _load_system_prompt L H w
  = (Raise (Exn "FileNotFoundError"
              (lit "Metadata prompt file not found: " ++ prompt_path H
               ++ lit ". "
               ++ lit "Ensure metadata_prompt.txt exists in the same directory as app.py.")),
     w).
Proof.
  intros E. unfold _load_system_prompt, path_exists.
  rewrite E, bool_decide_eq_false_2; [done|]. by intros [? ?].
Qed.

Lemma load_present w b :
  files H !! prompt_path H = Some b →
  _load_system_prompt L H w
  = (match decode_utf8 L b with
     | Ok text => Ok (strip (universal_newlines text))
     | Raise e => Raise e
     end,
     {| sent := sent w; reads := reads w ++ [prompt_path H] |}).
Proof.
  intros E. unfold _load_system_prompt, path_exists.
  rewrite E, bool_decide_eq_true_2 by eauto.
  cbn [negb]. unfold bind, read_text, append. rewrite E.
  by destruct (decode_utf8 L b).
Qed.

(** Whatever the inputs, the callbacks read no file. *)
Lemma send_message_reads app n message conversation w :
  reads (snd (send_message L app n message conversation w)) = reads w.
Proof.
  unfold send_message.
  destruct (negb (truthy_opt message) || _); [done|].
  unfold bind.
  pose proof (gateway_reads L app
                (append (default [] conversation)
                   (user_message (default [] message))) w) as Hg.
  destruct (call_databricks_model L app _ w) as [[reply|e] w1];
    simpl in Hg; [|done].
  match goal with
  | |- context [for_in ?c add_bubble [] w1] =>
      pose proof (for_in_bubbles_world c [] w1) as Hb;
      destruct (for_in c add_bubble [] w1) as [[ms|e] w2]
  end; simpl in Hb; subst; done.
Qed.

Lemma handle_file_upload_reads app contents filename conversation w :
  reads (snd (handle_file_upload L app contents filename conversation w))
  = reads w.
Proof.
  unfold handle_file_upload. destruct contents as [contents|]; [|done].
  destruct (sampler_total L contents filename) as [preview ->].
  unfold bind, lift.
  match goal with
  | |- context [call_databricks_model L app ?c w] =>
      pose proof (gateway_reads L app c w) as Hg;
      destruct (call_databricks_model L app c w) as [[reply|e] w1]
  end; simpl in Hg; [|done].
  match goal with
  | |- context [for_in ?c add_bubble [] w1] =>
      pose proof (for_in_bubbles_world c [] w1) as Hb;
      destruct (for_in c add_bubble [] w1) as [[ms|e] w2]
  end; simpl in Hb; subst; done.
Qed.

End StartupFacts.

(** C9: when the prompt file is missing, [_load_system_prompt] raises
    [FileNotFoundError] and start-up ends with an exception instead of a
    running application.  Whenever start-up succeeds, the file exists,
    it was read exactly once, and [SYSTEM_PROMPT] is its text, decoded as
    UTF-8, with "\r\n" and "\r" turned into "\n" as reading in text mode
    does, and stripped; start-up does succeed when the file exists, holds
    UTF-8 text and the workspace client can be built.  The gateway and the two callbacks
    never read a file afterwards. *)
Theorem system_prompt_loaded_at_startup (L : Lib) (H : Host) (w : World) :
  (files H !! prompt_path H = None →
   (∃ e, _load_system_prompt L H w = (Raise e, w)
         ∧ exn_class e = "FileNotFoundError")
   ∧ ∃ e, startup L H w = (Raise e, w))
  ∧ (∀ app w',
       startup L H w = (Ok app, w') →
       ∃ b text,
         files H !! prompt_path H = Some b
         ∧ decode_utf8 L b = Ok text
         ∧ SYSTEM_PROMPT app = strip (universal_newlines text)
         ∧ reads w' = reads w ++ [prompt_path H]
         ∧ sent w' = sent w)
  ∧ (∀ b text,
       files H !! prompt_path H = Some b →
       decode_utf8 L b = Ok text →
       (∀ profile host, workspace_client L profile host = Ok ()) →
       ∃ app,
         startup L H w
         = (Ok app, {| sent := sent w; reads := reads w ++ [prompt_path H] |})
         ∧ SYSTEM_PROMPT app = strip (universal_newlines text)
         ∧ SERVING_ENDPOINT app = environ H !! "DATABRICKS_SERVING_ENDPOINT")
  ∧ (∀ app conversation w0,
       reads (snd (call_databricks_model L app conversation w0)) = reads w0)
  ∧ (∀ app n_clicks message conversation w0,
       reads (snd (send_message L app n_clicks message conversation w0))
       = reads w0)
  ∧ (∀ app contents filename conversation w0,
       reads (snd (handle_file_upload L app contents filename conversation w0))
       = reads w0).
Proof.
  split; [|split; [|split; [|split; [|split]]]].
  - intros E. split.
    + eexists. split; [by apply load_missing|done].
    + unfold startup, bind, lift.
      destruct (if truthy_opt _ && truthy_opt _ then _ else _) as [[]|e];
        [|by eauto].
      rewrite load_missing by done. by eauto.
  - intros app w' Hs. unfold startup, bind, lift in Hs.
    destruct (if truthy_opt _ && truthy_opt _ then _ else _) as [[]|e];
      [|discriminate Hs].
    destruct (files H !! prompt_path H) as [b|] eqn:E.
    + rewrite (load_present L H w b E) in Hs.
      destruct (decode_utf8 L b) as [text|e] eqn:Hd; [|discriminate Hs].
      exists b, text. unfold ret in Hs. by simplify_eq.
    + rewrite (load_missing L H w E) in Hs. discriminate Hs.
  - intros b text E Hd Hc.
    exists {| DATABRICKS_CONFIG_PROFILE := getenv H "DATABRICKS_CONFIG_PROFILE";
              DATABRICKS_HOST := getenv H "DATABRICKS_HOST";
              SERVING_ENDPOINT := getenv H "DATABRICKS_SERVING_ENDPOINT";
              SYSTEM_PROMPT := strip (universal_newlines text) |}.
    split; [|split; reflexivity].
    unfold startup, bind, lift.
    assert ((if truthy_opt (getenv H "DATABRICKS_CONFIG_PROFILE")
                && truthy_opt (getenv H "DATABRICKS_HOST")
             then workspace_client L (getenv H "DATABRICKS_CONFIG_PROFILE")
                    (getenv H "DATABRICKS_HOST")
             else workspace_client L None None) = Ok ()) as ->.
    { destruct (_ && _); apply Hc. }
    rewrite (load_present L H w b E), Hd. reflexivity.
  - intros. apply gateway_reads.
  - intros. apply send_message_reads.
  - intros. apply handle_file_upload_reads.
Qed.

Lemma system_prompt_loaded_at_startup_witness :
  (∃ e, startup (Canned.endpoint Canned.refused) (Canned.host None)
          Canned.world
        = (Raise e, Canned.world))
  ∧ (∃ app,
       startup (Canned.lib Canned.refused
                  (Ok (lit " hi" ++ [13; 10]%N ++ lit "there" ++ [13; 10]%N))
                  Canned.refused Canned.refused Canned.refused)
         (Canned.host
            (Some [x20; x68; x69; x0d; x0a; x74; x68; x65; x72; x65;
                   x0d; x0a]%byte))
         Canned.world
       = (Ok app, {| sent := [];
                     reads := [lit "/srv/app/metadata_prompt.txt"] |})
       ∧ SYSTEM_PROMPT app = lit "hi" ++ nl ++ lit "there").
Proof.
  split.
  - destruct (system_prompt_loaded_at_startup
                (Canned.endpoint Canned.refused) (Canned.host None)
                Canned.world) as (Hmissing & _).
    apply Hmissing. reflexivity.
  - destruct (system_prompt_loaded_at_startup
                (Canned.lib Canned.refused
                   (Ok (lit " hi" ++ [13; 10]%N ++ lit "there"
                        ++ [13; 10]%N))
                   Canned.refused Canned.refused Canned.refused)
                (Canned.host
                   (Some [x20; x68; x69; x0d; x0a; x74; x68; x65; x72; x65;
                          x0d; x0a]%byte))
                Canned.world) as (_ & _ & Hpresent & _).
    destruct (Hpresent
                [x20; x68; x69; x0d; x0a; x74; x68; x65; x72; x65;
                 x0d; x0a]%byte
                (lit " hi" ++ [13; 10]%N ++ lit "there" ++ [13; 10]%N)
                eq_refl eq_refl (λ _ _, eq_refl))
      as (app & Hs & Hprompt & _).
    exists app. split; [exact Hs|]. rewrite Hprompt. reflexivity.
Defined.

(** * Further properties of the code *)

(** ** Splitting and joining *)

Section SplitFacts.

Implicit Types s a b : str.

Lemma count_char_app c a b :
  count_char c (a ++ b) = count_char c a + count_char c b.
Proof. induction a as [|x a IH]; simpl; [done|]. rewrite IH. lia. Qed.

(** One more part than separators. *)
Lemma split_length sep s : length (split sep s) = S (count_char sep s).
Proof.
  induction s as [|c s IH]; simpl; [done|].
  destruct (N.eqb c sep); simpl; [by rewrite IH|].
  destruct (split sep s); simpl in *; lia.
Qed.

Lemma split_no_sep sep s : count_char sep s = 0 → split sep s = [s].
Proof.
  induction s as [|c s IH]; simpl; [done|].
  destruct (N.eqb c sep); simpl; [done|]. intros E. by rewrite IH.
Qed.

Lemma split_app_sep sep a b :
  count_char sep a = 0 → split sep (a ++ sep :: b) = a :: split sep b.
Proof.
  induction a as [|c a IH]; simpl.
  - by rewrite N.eqb_refl.
  - destruct (N.eqb c sep); simpl; [done|]. intros E. by rewrite IH.
Qed.

Lemma split_parts_clean sep s :
  Forall (λ part, count_char sep part = 0) (split sep s).
Proof.
  induction s as [|c s IH]; simpl; [by repeat constructor|].
  destruct (N.eqb c sep) eqn:E; [by constructor|].
  destruct (split sep s) as [|part parts]; [by repeat constructor; simpl; rewrite E|].
  inversion IH; subst. constructor; [|done]. simpl. by rewrite E.
Qed.

Lemma join_cons_cons sep p q (ps : list str) :
  join sep (p :: q :: ps) = p ++ sep ++ join sep (q :: ps).
Proof. reflexivity. Qed.

Lemma count_char_join sep (parts : list str) :
  Forall (λ part, count_char sep part = 0) parts →
  count_char sep (join (chr sep) parts) = pred (length parts).
Proof.
  induction 1 as [|p ps Hp F IH]; [done|].
  destruct ps as [|q ps]; [done|].
  rewrite join_cons_cons, !count_char_app, Hp, IH. simpl.
  by rewrite N.eqb_refl.
Qed.

(** Cutting the list of parts cuts the joined text at a separator. *)
Lemma join_take_drop sep (parts : list str) n :
  0 < n < length parts →
  join (chr sep) parts
  = join (chr sep) (take n parts) ++ chr sep ++ join (chr sep) (drop n parts).
Proof.
  revert n. induction parts as [|p ps IH]; intros n [Hn Hl]; simpl in Hl;
    [lia|].
  destruct n as [|n]; [lia|]. destruct ps as [|q ps]; simpl in Hl; [lia|].
  destruct n as [|n].
  - reflexivity.
  - rewrite join_cons_cons.
    rewrite (IH (S n)) by (simpl; lia).
    change (take (S (S n)) (p :: q :: ps)) with (p :: take (S n) (q :: ps)).
    change (drop (S (S n)) (p :: q :: ps)) with (drop (S n) (q :: ps)).
    assert (∃ r rs, take (S n) (q :: ps) = r :: rs) as (r & rs & ->)
      by (simpl; eauto).
    rewrite join_cons_cons. by rewrite <- !app_assoc.
Qed.

End SplitFacts.

(** ** File Sampler: shape, dispatch and truncation *)

Lemma sampler_body_shape (L : Lib) (contents filename preview : str) :
  parse_file_body L contents filename = Ok preview →
  (lit "File: " ++ filename ++ nl ++ lit "Sample data") `prefix_of` preview.
Proof.
  intros E.
  destruct (unpack2 (split 44 contents)) as [[ct cs]|e0] eqn:Hu;
    [|unfold parse_file_body in E; by rewrite Hu in E].
  apply unpack2_ok in Hu as Hs.
  destruct (b64decode L cs) as [d|e1] eqn:Hb;
    [|unfold parse_file_body in E; rewrite Hs in E; simpl in E;
      by rewrite Hb in E].
  rewrite (sampler_decoded L _ _ _ _ _ Hs Hb) in E.
  destruct (endswith filename (lit ".csv")).
  - destruct (decode_utf8 L d) as [t|]; simpl in E; [|done].
    destruct (read_csv L t) as [df|]; simpl in E; [|done]. simplify_eq.
    exists (lit " (first 10 rows):" ++ nl ++ nl ++ to_string L (head 10 df)).
    by rewrite <- !app_assoc.
  - destruct (endswith_any filename _).
    + destruct (read_excel L d) as [df|]; simpl in E; [|done]. simplify_eq.
      exists (lit " (first 10 rows):" ++ nl ++ nl ++ to_string L (head 10 df)).
      by rewrite <- !app_assoc.
    + destruct (endswith filename (lit ".json")).
      * destruct (decode_utf8 L d) as [t|]; simpl in E; [|done].
        destruct (json_loads L t) as [v|]; simpl in E; [|done]. simplify_eq.
        eexists (lit ":" ++ nl ++ nl ++ _). by rewrite <- !app_assoc.
      * destruct (decode_utf8 L d) as [t|]; simpl in E; [|done]. simplify_eq.
        eexists (lit " (first 10 lines):" ++ nl ++ nl ++ _).
        by rewrite <- !app_assoc.
Qed.

(** X1: whatever the upload, the sampler returns one of two kinds of text:
    an error report "Error parsing file: <message>", or a preview that
    starts with "File: <filename>", a newline and "Sample data". *)
Theorem sampler_result_shape (L : Lib) (contents filename : str) :
  ∃ text,
    parse_file_content L contents filename = Ok text
    ∧ ((∃ e, parse_file_body L contents filename = Raise e
             ∧ text = lit "Error parsing file: " ++ exn_str e)
       ∨ (parse_file_body L contents filename = Ok text
          ∧ (lit "File: " ++ filename ++ nl ++ lit "Sample data")
              `prefix_of` text)).
Proof.
  destruct (parse_file_body L contents filename) as [preview|e] eqn:E.
  - exists preview. split; [by apply sampler_passes|].
    right. split; [done|]. by eapply sampler_body_shape.
  - eexists. split; [by apply sampler_handles|]. left. by exists e.
Qed.

(** X2: a [contents] string that does not hold exactly one comma is
    reported as a [ValueError], with the same text for every library: no
    decoder or parser is consulted. *)
Theorem sampler_needs_one_comma (contents filename : str) :
  count_char 44 contents ≠ 1 →
  ∃ e, exn_class e = "ValueError"
       ∧ ∀ L, parse_file_content L contents filename
              = Ok (lit "Error parsing file: " ++ exn_str e).
Proof.
  intros Hc. pose proof (split_length 44 contents) as Hl.
  destruct (split 44 contents) as [|a [|b [|c rest]]] eqn:Hs;
    simpl in Hl; try lia.
  - eexists. split; [|intros L; apply sampler_handles;
                      unfold parse_file_body; rewrite Hs; reflexivity].
    reflexivity.
  - eexists. split; [|intros L; apply sampler_handles;
                      unfold parse_file_body; rewrite Hs; reflexivity].
    reflexivity.
Qed.

Lemma sampler_needs_one_comma_witness :
  ∃ e, exn_class e = "ValueError"
       ∧ ∀ L, parse_file_content L (lit "a,b,c") (lit "rows.csv")
              = Ok (lit "Error parsing file: " ++ exn_str e).
Proof.
  apply (sampler_needs_one_comma (lit "a,b,c") (lit "rows.csv")).
  vm_compute. discriminate.
Defined.

(** X3: the part of the data URL before the comma plays no role: two
    uploads with the same base64 text and the same file name get the same
    result, whatever content type each declares. *)
Theorem sampler_ignores_content_type (L : Lib)
    (content_type1 content_type2 content_string filename : str) :
  count_char 44 content_type1 = 0 →
  count_char 44 content_type2 = 0 →
  count_char 44 content_string = 0 →
  parse_file_content L (content_type1 ++ lit "," ++ content_string) filename
  = parse_file_content L (content_type2 ++ lit "," ++ content_string) filename.
Proof.
  intros H1 H2 Hs. unfold parse_file_content, parse_file_body.
  change (lit "," ++ content_string) with (44%N :: content_string).
  by rewrite !split_app_sep, (split_no_sep _ _ Hs).
Qed.

Lemma sampler_ignores_content_type_witness :
  parse_file_content
    (Canned.upload (Ok []) (Ok (lit "x")) Canned.refused Canned.refused)
    (lit "data:text/plain;base64" ++ lit "," ++ lit "eA==") (lit "x.txt")
  = parse_file_content
      (Canned.upload (Ok []) (Ok (lit "x")) Canned.refused Canned.refused)
      (lit "data:image/png;base64" ++ lit "," ++ lit "eA==") (lit "x.txt").
Proof.
  apply (sampler_ignores_content_type
           (Canned.upload (Ok []) (Ok (lit "x")) Canned.refused Canned.refused)
           (lit "data:text/plain;base64") (lit "data:image/png;base64")
           (lit "eA==") (lit "x.txt")); reflexivity.
Defined.

(** X4: JSON data that is not a list, or a list of at most 10 elements,
    is serialised whole: only a list is ever cut, and only beyond 10. *)
Theorem json_small_or_other_whole (L : Lib)
    (contents filename content_type content_string : str)
    (decoded : bytes) (text : str) (data : json) :
  split 44 contents = [content_type; content_string] →
  b64decode L content_string = Ok decoded →
  endswith filename (lit ".json") = true →
  decode_utf8 L decoded = Ok text →
  json_loads L text = Ok data →
  (∀ items, data = JList items → length items ≤ 10) →
  parse_file_content L contents filename
  = Ok (preview_header filename (lit "Sample data:") ++ json_dumps L data 2).
Proof.
  intros Hs Hb Hj Hd Hp Hsmall. apply sampler_passes.
  rewrite (sampler_decoded L _ _ _ _ _ Hs Hb), Hj.
  rewrite (json_not_csv _ Hj), (json_not_excel _ Hj). simpl.
  rewrite Hd. simpl. rewrite Hp. simpl. unfold preview_header.
  rewrite <- !app_assoc. do 7 f_equal.
  destruct data; try reflexivity.
  by rewrite take_ge by by apply Hsmall.
Qed.

Lemma json_small_or_other_whole_witness :
  parse_file_content
    (Canned.upload (Ok []) (Ok (lit "{}")) Canned.refused
       (Ok (JDict [(lit "rows", JList (map JInt (seqZ 0 40)))])))
    (lit "data:application/json;base64,e30=") (lit "big.json")
  = Ok (preview_header (lit "big.json") (lit "Sample data:") ++ lit "<json>").
Proof.
  apply (json_small_or_other_whole
           (Canned.upload (Ok []) (Ok (lit "{}")) Canned.refused
              (Ok (JDict [(lit "rows", JList (map JInt (seqZ 0 40)))])))
           (lit "data:application/json;base64,e30=") (lit "big.json")
           (lit "data:application/json;base64") (lit "e30=") [] (lit "{}")
           (JDict [(lit "rows", JList (map JInt (seqZ 0 40)))])
           eq_refl eq_refl eq_refl eq_refl eq_refl).
  intros items E. discriminate E.
Defined.

(** X5: the text preview shows a prefix of the text with at most 9
    newlines.  A text with at most 9 newlines is shown whole; a longer one
    is cut just before its 10th newline. *)
Theorem text_preview_truncates (L : Lib)
    (contents filename content_type content_string : str)
    (decoded : bytes) (text : str) :
  split 44 contents = [content_type; content_string] →
  b64decode L content_string = Ok decoded →
  endswith filename (lit ".csv") = false →
  endswith_any filename [lit ".xlsx"; lit ".xls"] = false →
  endswith filename (lit ".json") = false →
  decode_utf8 L decoded = Ok text →
  ∃ body,
    parse_file_content L contents filename
    = Ok (preview_header filename (lit "Sample data (first 10 lines):")
          ++ body)
    ∧ body `prefix_of` text
    ∧ count_char 10 body ≤ 9
    ∧ (count_char 10 text ≤ 9 → body = text)
    ∧ (9 < count_char 10 text →
       count_char 10 body = 9 ∧ ∃ rest, text = body ++ nl ++ rest).
Proof.
  intros Hs Hb Hc Hx Hj Hd.
  exists (join (chr 10) (take 10 (split 10 text))). split.
  { apply sampler_passes.
    rewrite (sampler_decoded L _ _ _ _ _ Hs Hb), Hc, Hx, Hj. simpl.
    rewrite Hd. simpl. unfold preview_header. by rewrite <- !app_assoc. }
  pose proof (split_length 10 text) as Hl.
  pose proof (split_parts_clean 10 text) as Hclean.
  pose proof (join_split 10 text) as Hjoin.
  destruct (decide (count_char 10 text ≤ 9)) as [Hle|Hgt].
  - rewrite take_ge by lia. rewrite Hjoin.
    split; [done|]. split; [done|]. split; [done|]. lia.
  - assert (count_char 10 (join (chr 10) (take 10 (split 10 text))) = 9)
      as Hcount.
    { rewrite count_char_join by by apply Forall_take.
      rewrite length_take. lia. }
    assert (text = join (chr 10) (take 10 (split 10 text)) ++ nl
                   ++ join (chr 10) (drop 10 (split 10 text))) as Hcut.
    { rewrite <- Hjoin at 1. apply join_take_drop. lia. }
    split; [by eexists|]. split; [lia|]. split; [lia|].
    intros _. split; [done|]. by eexists.
Qed.

Lemma text_preview_truncates_witness :
  ∃ body,
    parse_file_content
      (Canned.upload (Ok [])
         (Ok (join nl (map (λ _, lit "line") (seq 0 12))))
         Canned.refused Canned.refused)
      (lit "data:text/plain;base64,bGluZQ==") (lit "log.txt")
    = Ok (preview_header (lit "log.txt")
            (lit "Sample data (first 10 lines):") ++ body)
    ∧ count_char 10 body = 9.
Proof.
  destruct (text_preview_truncates
              (Canned.upload (Ok [])
                 (Ok (join nl (map (λ _, lit "line") (seq 0 12))))
                 Canned.refused Canned.refused)
              (lit "data:text/plain;base64,bGluZQ==") (lit "log.txt")
              (lit "data:text/plain;base64") (lit "bGluZQ==") []
              (join nl (map (λ _, lit "line") (seq 0 12)))
              eq_refl eq_refl eq_refl eq_refl eq_refl eq_refl)
    as (body & Hp & _ & _ & _ & Hcut).
  exists body. split; [exact Hp|].
  apply Hcut. vm_compute. lia.
Defined.

Lemma endswith_false_by_last (s suf : str) c :
  last suf = Some c → last s ≠ Some c → endswith s suf = false.
Proof.
  intros Hc Hs. destruct (endswith s suf) eqn:E; [|done].
  by rewrite (endswith_last _ _ _ E Hc) in Hs.
Qed.

(** X6: the extension is matched as written, lower case, at the very end
    of the file name.  A name whose last character is none of v, x, s, n
    (an upper-case ".CSV", no extension, the empty name) is sampled as
    plain text: the payload must be UTF-8 and no table or JSON parser
    runs. *)
Theorem unrecognised_suffix_is_text (L : Lib)
    (contents filename content_type content_string : str)
    (decoded : bytes) :
  split 44 contents = [content_type; content_string] →
  b64decode L content_string = Ok decoded →
  (∀ c, last filename = Some c →
        c ≠ 118%N ∧ c ≠ 120%N ∧ c ≠ 115%N ∧ c ≠ 110%N) →
  parse_file_content L contents filename
  = match decode_utf8 L decoded with
    | Ok text =>
        Ok (preview_header filename (lit "Sample data (first 10 lines):")
            ++ join nl (take 10 (split 10 text)))
    | Raise e => Ok (lit "Error parsing file: " ++ exn_str e)
    end.
Proof.
  intros Hs Hb Hlast.
  assert (∀ c, c = 118%N ∨ c = 120%N ∨ c = 115%N ∨ c = 110%N →
               last filename ≠ Some c) as Hne.
  { intros c Hc E. destruct (Hlast c E) as (? & ? & ? & ?).
    destruct Hc as [?|[?|[?|?]]]; done. }
  unfold parse_file_content.
  rewrite (sampler_decoded L _ _ _ _ _ Hs Hb).
  rewrite (endswith_false_by_last filename (lit ".csv") 118%N),
    (endswith_false_by_last filename (lit ".json") 110%N);
    [|reflexivity|apply Hne; tauto|reflexivity|apply Hne; tauto].
  unfold endswith_any, existsb.
  rewrite (endswith_false_by_last filename (lit ".xlsx") 120%N),
    (endswith_false_by_last filename (lit ".xls") 115%N);
    [|reflexivity|apply Hne; tauto|reflexivity|apply Hne; tauto].
  cbn [orb].
  destruct (decode_utf8 L decoded); simpl; [|done].
  unfold preview_header. by rewrite <- !app_assoc.
Qed.

Lemma unrecognised_suffix_is_text_witness :
  parse_file_content
    (Canned.upload (Ok []) (Ok (lit "id,name"))
       (Ok {| df_columns := [lit "id"; lit "name"]; df_rows := [] |})
       Canned.refused)
    (lit "data:text/csv;base64,aWQsbmFtZQ==") (lit "STATIONS.CSV")
  = Ok (preview_header (lit "STATIONS.CSV")
          (lit "Sample data (first 10 lines):") ++ lit "id,name").
Proof.
  apply (unrecognised_suffix_is_text
           (Canned.upload (Ok []) (Ok (lit "id,name"))
              (Ok {| df_columns := [lit "id"; lit "name"]; df_rows := [] |})
              Canned.refused)
           (lit "data:text/csv;base64,aWQsbmFtZQ==") (lit "STATIONS.CSV")
           (lit "data:text/csv;base64") (lit "aWQsbmFtZQ==") []
           eq_refl eq_refl).
  intros c E. vm_compute in E. simplify_eq. done.
Defined.

(** ** Model Gateway and callbacks: keys, roles and what is sent *)

Section MoreCallbacks.

Context (L : Lib) (app : App).

(** The key a dict lacks, in the order lines 268-269 ask for them. *)
Lemma add_chat_message_missing m acc w :
  ¬ well_formed m →
  add_chat_message m acc w
  = (Raise (Exn "KeyError"
              (lit "'"
               ++ lit (match m !! "role" with
                    | None => "role"
                    | Some _ => "content"
                    end)
               ++ lit "'")), w).
Proof.
  intros NW. unfold add_chat_message, bind, lift.
  destruct (m !! "role") as [r|] eqn:Hr.
  - rewrite (getitem_lookup _ _ _ Hr).
    destruct (m !! "content") as [c|] eqn:Hc.
    + destruct NW. split; eauto.
    + by rewrite (getitem_raise _ _ Hc).
  - by rewrite (getitem_raise _ _ Hr).
Qed.

Lemma for_in_chat_missing good m rest acc w :
  Forall well_formed good → ¬ well_formed m →
  for_in (good ++ m :: rest) add_chat_message acc w
  = (Raise (Exn "KeyError"
              (lit "'"
               ++ lit (match m !! "role" with
                    | None => "role"
                    | Some _ => "content"
                    end)
               ++ lit "'")), w).
Proof.
  intros F NW. revert acc.
  induction F as [|g gs Hg _ IH]; intros acc; simpl; unfold bind at 1.
  - by rewrite add_chat_message_missing.
  - rewrite add_chat_message_wf by done. apply IH.
Qed.

Lemma add_bubble_missing m acc w :
  ¬ well_formed m →
  ∃ e, add_bubble m acc w = (Raise e, w) ∧ exn_class e = "KeyError".
Proof.
  intros NW. unfold add_bubble, bind, lift.
  destruct (m !! "role") as [r|] eqn:Hr.
  - rewrite (getitem_lookup _ _ _ Hr).
    destruct (m !! "content") as [c|] eqn:Hc.
    + destruct NW. split; eauto.
    + rewrite (getitem_raise _ _ Hc).
      destruct (bool_decide (r = VStr (lit "user"))); eauto.
  - rewrite (getitem_raise _ _ Hr). eauto.
Qed.

Lemma for_in_bubbles_raise conversation acc w :
  ¬ Forall well_formed conversation →
  ∃ e, for_in conversation add_bubble acc w = (Raise e, w)
       ∧ exn_class e = "KeyError".
Proof.
  intros NF. revert acc.
  induction conversation as [|m ms IH]; intros acc.
  - destruct NF. constructor.
  - simpl. unfold bind at 1.
    destruct (decide (well_formed m)) as [Hm|Hm].
    + rewrite add_bubble_wf by done. apply IH.
      intros F. apply NF. by constructor.
    + destruct (add_bubble_missing m acc w Hm) as (e & -> & He). eauto.
Qed.

(** Whatever the dicts, nothing is sent unless the endpoint is set and
    every dict has both keys. *)
Lemma gateway_silent conversation w :
  ¬ (truthy_opt (SERVING_ENDPOINT app) = true
     ∧ Forall well_formed conversation) →
  ∃ text, call_databricks_model L app conversation w = (Ok text, w).
Proof.
  intros N. destruct (truthy_opt (SERVING_ENDPOINT app)) eqn:E.
  - destruct (decide (Forall well_formed conversation)) as [F|NF];
      [by destruct N|].
    destruct (gateway_malformed L app conversation w E NF) as [e ->]. eauto.
  - rewrite gateway_unset by done. eauto.
Qed.

Lemma chat_message_of_user c :
  chat_message_of (user_message c)
  = {| cm_role := USER; cm_content := VStr c |}.
Proof.
  unfold chat_message_of, user_message. by simplify_map_eq.
Qed.

Lemma chat_message_of_assistant c :
  chat_message_of (assistant_message c)
  = {| cm_role := ASSISTANT; cm_content := c |}.
Proof.
  unfold chat_message_of, assistant_message. by simplify_map_eq.
Qed.

Lemma bubble_of_user c :
  bubble_of (user_message c)
  = {| children := Text (VStr c); className := lit "chat-message user";
       style := [("whiteSpace", "pre-wrap")] |}.
Proof. unfold bubble_of, user_message. by simplify_map_eq. Qed.

Lemma bubble_of_assistant c :
  bubble_of (assistant_message c)
  = {| children := Markdown c; className := lit "chat-message assistant";
       style := [] |}.
Proof. unfold bubble_of, assistant_message. by simplify_map_eq. Qed.

(** An effective click with the endpoint set: what is sent and what is
    stored. *)
Lemma send_message_configured n message conversation w :
  truthy_opt (SERVING_ENDPOINT app) = true →
  has_visible_char message →
  Forall well_formed conversation →
  let request := gateway_request app (conversation ++ [user_message message]) in
  let reply := reply_text (serving_query L (sent w) request) in
  send_message L app n (Some message) (Some conversation) w
  = (Ok (update (map bubble_of
                   (conversation ++ [user_message message;
                                     assistant_message reply])),
         update [],
         update (conversation ++ [user_message message;
                                  assistant_message reply])),
     {| sent := sent w ++ [request]; reads := reads w |}).
Proof.
  intros E V F request reply.
  destruct (send_message_round_trip L app n message conversation w V F)
    as (reply' & w' & Hg & Hs).
  assert (Forall well_formed (conversation ++ [user_message message]))
    as Fu.
  { apply Forall_app. split; [done|].
    constructor; [apply well_formed_user|constructor]. }
  rewrite (gateway_configured L app _ w E Fu) in Hg.
  injection Hg as <- <-. exact Hs.
Qed.

End MoreCallbacks.

(** X7: a dict without 'role' or 'content' makes the gateway answer
    "Error calling model: '<key>'", naming the first key missing from the
    first such dict ('role' is asked for before 'content'); no request is
    sent, although the endpoint is set. *)
Theorem gateway_missing_key (L : Lib) (app : App)
    (good : list message_dict) (m : message_dict)
    (rest : list message_dict) (w : World) :
  truthy_opt (SERVING_ENDPOINT app) = true →
  Forall well_formed good →
  ¬ well_formed m →
  call_databricks_model L app (good ++ m :: rest) w
  = (Ok (VStr (lit "Error calling model: "
               ++ lit "'"
               ++ lit (match m !! "role" with
                       | None => "role"
                       | Some _ => "content"
                       end)
               ++ lit "'")), w).
Proof.
  intros E F NW. unfold call_databricks_model. rewrite E. cbn [negb].
  unfold try_except, bind at 1.
  by rewrite for_in_chat_missing.
Qed.

Lemma gateway_missing_key_witness :
  call_databricks_model (Canned.endpoint (Canned.reply_with (lit "ok")))
    (Canned.app (Some (lit "claude")))
    (Canned.two_messages ++ {[ "role" := VStr (lit "user") ]} :: [])
    Canned.world
  = (Ok (VStr (lit "Error calling model: 'content'")), Canned.world).
Proof.
  etrans.
  - apply (gateway_missing_key
             (Canned.endpoint (Canned.reply_with (lit "ok")))
             (Canned.app (Some (lit "claude")))
             Canned.two_messages {[ "role" := VStr (lit "user") ]} []
             Canned.world).
    + reflexivity.
    + repeat constructor;
        apply well_formed_user || apply well_formed_assistant.
    + intros [_ [c Hc]]. vm_compute in Hc. discriminate Hc.
  - vm_compute. reflexivity.
Defined.

(** X8: a stored message whose role is anything but 'user' ('system' or
    a misspelt role included) is sent to the endpoint with the role
    ASSISTANT and shown as an assistant bubble, with its content
    unchanged. *)
Theorem other_roles_are_assistant (L : Lib) (app : App) (n_clicks : Z)
    (message : str) (conversation : list message_dict) (w : World)
    (i : nat) (m : message_dict) (r c : value) :
  truthy_opt (SERVING_ENDPOINT app) = true →
  has_visible_char message →
  Forall well_formed conversation →
  conversation !! i = Some m →
  m !! "role" = Some r →
  r ≠ VStr (lit "user") →
  m !! "content" = Some c →
  ∃ request displayed history,
    send_message L app n_clicks (Some message) (Some conversation) w
    = (Ok (update displayed, update [], update history),
       {| sent := sent w ++ [request]; reads := reads w |})
    ∧ req_messages request !! S i
      = Some {| cm_role := ASSISTANT; cm_content := c |}
    ∧ displayed !! i
      = Some {| children := Markdown c;
                className := lit "chat-message assistant";
                style := [] |}.
Proof.
  intros E V F Hi Hr Hne Hc. eexists _, _, _.
  split; [by apply send_message_configured|].
  assert (bool_decide (r = VStr (lit "user")) = false) as Hb
    by by apply bool_decide_eq_false_2.
  split.
  - change (req_messages (gateway_request app ?x) !! S i)
      with (map chat_message_of x !! i).
    rewrite list_lookup_fmap, lookup_app_l by by eapply lookup_lt_Some.
    rewrite Hi. cbn [fmap option_fmap option_map].
    unfold chat_message_of. rewrite Hr, Hc. cbn [from_option id].
    by rewrite Hb.
  - rewrite list_lookup_fmap, lookup_app_l by by eapply lookup_lt_Some.
    rewrite Hi. cbn [fmap option_fmap option_map].
    unfold bubble_of. rewrite Hr, Hc. cbn [from_option id].
    by rewrite Hb.
Qed.

Lemma other_roles_are_assistant_witness :
  ∃ request displayed history,
    send_message (Canned.endpoint (Canned.reply_with (lit "ok")))
      (Canned.app (Some (lit "claude"))) 1 (Some (lit "hello"))
      (Some [ {[ "role" := VStr (lit "system");
                 "content" := VStr (lit "Be brief.") ]} ])
      Canned.world
    = (Ok (update displayed, update [], update history),
       {| sent := [request]; reads := [] |})
    ∧ req_messages request !! 1
      = Some {| cm_role := ASSISTANT;
                cm_content := VStr (lit "Be brief.") |}.
Proof.
  destruct (other_roles_are_assistant
              (Canned.endpoint (Canned.reply_with (lit "ok")))
              (Canned.app (Some (lit "claude"))) 1 (lit "hello")
              [ {[ "role" := VStr (lit "system");
                   "content" := VStr (lit "Be brief.") ]} ]
              Canned.world 0
              {[ "role" := VStr (lit "system");
                 "content" := VStr (lit "Be brief.") ]}
              (VStr (lit "system")) (VStr (lit "Be brief.")))
    as (request & displayed & history & Hs & Hr & _).
  - reflexivity.
  - apply Exists_cons_hd. reflexivity.
  - constructor; [|constructor]. split; eexists; reflexivity.
  - reflexivity.
  - reflexivity.
  - vm_compute. discriminate.
  - reflexivity.
  - by exists request, displayed, history.
Defined.

(** The user message an upload is recorded as. *)
Lemma handle_file_upload_configured (L : Lib) (app : App)
    (contents filename preview : str) (conversation : list message_dict)
    (w : World) :
  truthy_opt (SERVING_ENDPOINT app) = true →
  Forall well_formed conversation →
  parse_file_content L contents filename = Ok preview →
  let upload :=
    user_message (lit "[File uploaded: " ++ filename ++ lit "]"
                  ++ nl ++ nl ++ preview) in
  let request := gateway_request app (conversation ++ [upload]) in
  let reply := reply_text (serving_query L (sent w) request) in
  handle_file_upload L app (Some contents) filename (Some conversation) w
  = (Ok (update (Some preview),
         update (map bubble_of
                   (conversation ++ [upload; assistant_message reply])),
         update (conversation ++ [upload; assistant_message reply])),
     {| sent := sent w ++ [request]; reads := reads w |}).
Proof.
  intros E F Hp upload request reply.
  assert (Forall well_formed (conversation ++ [upload])) as Fu.
  { apply Forall_app. split; [done|].
    constructor; [apply well_formed_user|constructor]. }
  unfold handle_file_upload. rewrite Hp. unfold bind, lift.
  cbn [from_option id].
  change (append conversation
            (user_message (lit "[File uploaded: " ++ filename ++ lit "]"
                           ++ nl ++ nl ++ preview)))
    with (conversation ++ [upload]).
  rewrite (gateway_configured L app _ w E Fu).
  fold request. fold reply.
  rewrite for_in_bubbles.
  - unfold append. by rewrite <- app_assoc.
  - unfold append. rewrite Forall_app. split; [done|].
    constructor; [apply well_formed_assistant|constructor].
Qed.

(** X9: with the endpoint not configured both callbacks still complete
    their round trip: the user message is stored, the configuration
    message is stored as the assistant's reply, the input is cleared, and
    nothing is sent or read. *)
Theorem unset_endpoint_round_trip (L : Lib) (app : App) (n_clicks : Z)
    (message contents filename : str) (conversation : list message_dict)
    (w : World) :
  truthy_opt (SERVING_ENDPOINT app) = false →
  has_visible_char message →
  Forall well_formed conversation →
  (∃ displayed,
     send_message L app n_clicks (Some message) (Some conversation) w
     = (Ok (update displayed, update [],
            update (conversation
                    ++ [user_message message;
                        assistant_message (VStr endpoint_unset_message)])),
        w))
  ∧ (∃ preview displayed,
       parse_file_content L contents filename = Ok preview
       ∧ handle_file_upload L app (Some contents) filename
           (Some conversation) w
         = (Ok (update (Some preview), update displayed,
                update (conversation
                        ++ [user_message
                              (lit "[File uploaded: " ++ filename ++ lit "]"
                               ++ nl ++ nl ++ preview);
                            assistant_message (VStr endpoint_unset_message)])),
            w)).
Proof.
  intros E V F. split.
  - destruct (send_message_round_trip L app n_clicks message conversation
                w V F) as (reply & w' & Hg & Hs).
    rewrite gateway_unset in Hg by done. injection Hg as <- <-. eauto.
  - destruct (handle_file_upload_round_trip L app contents filename
                conversation w F) as (preview & reply & w' & Hp & Hu).
    assert (call_databricks_model L app
              (conversation
               ++ [user_message (lit "[File uploaded: " ++ filename
                                 ++ lit "]" ++ nl ++ nl ++ preview)]) w
            = (Ok (VStr endpoint_unset_message), w)) as Hg
      by by apply gateway_unset.
    exists preview. eexists. split; [done|].
    unfold handle_file_upload. rewrite Hp. unfold bind, lift.
    cbn [from_option id].
    match goal with
    | |- context [call_databricks_model L app (append conversation ?m) w] =>
        change (append conversation m) with (conversation ++ [m])
    end.
    rewrite Hg, for_in_bubbles by by apply well_formed_snoc2.
    unfold append. by rewrite <- app_assoc.
Qed.

Lemma unset_endpoint_round_trip_witness :
  ∃ displayed,
    send_message (Canned.endpoint Canned.refused) (Canned.app (Some []))
      1 (Some (lit "Describe this dataset")) (Some []) Canned.world
    = (Ok (update displayed, update [],
           update [user_message (lit "Describe this dataset");
                   assistant_message (VStr endpoint_unset_message)]),
       Canned.world).
Proof.
  destruct (unset_endpoint_round_trip
              (Canned.endpoint Canned.refused) (Canned.app (Some []))
              1 (lit "Describe this dataset") (lit "no comma") (lit "a.txt")
              [] Canned.world) as [Hs _].
  - reflexivity.
  - apply Exists_cons_hd. reflexivity.
  - constructor.
  - exact Hs.
Defined.

(** X10: a file that cannot be decoded or parsed does not stop the
    upload: the error text is stored as the file data, recorded in the
    conversation as the user's upload message, and sent to the endpoint as
    the last message of the request. *)
Theorem upload_forwards_parse_error (L : Lib) (app : App)
    (contents filename : str) (e : exn)
    (conversation : list message_dict) (w : World) :
  truthy_opt (SERVING_ENDPOINT app) = true →
  Forall well_formed conversation →
  sampler_failure L contents filename e →
  let report :=
    lit "[File uploaded: " ++ filename ++ lit "]" ++ nl ++ nl
    ++ lit "Error parsing file: " ++ exn_str e in
  ∃ request reply displayed,
    handle_file_upload L app (Some contents) filename (Some conversation) w
    = (Ok (update (Some (lit "Error parsing file: " ++ exn_str e)),
           update displayed,
           update (conversation
                   ++ [user_message report; assistant_message reply])),
       {| sent := sent w ++ [request]; reads := reads w |})
    ∧ last (req_messages request)
      = Some {| cm_role := USER; cm_content := VStr report |}.
Proof.
  intros E F Hf report.
  assert (parse_file_content L contents filename
          = Ok (lit "Error parsing file: " ++ exn_str e)) as Hp
    by by apply sampler_handles, sampler_failure_raises.
  eexists _, _, _. split.
  - by rewrite (handle_file_upload_configured L app _ _ _ _ w E F Hp).
  - unfold gateway_request. cbn [req_messages].
    rewrite map_app. cbn [map].
    rewrite chat_message_of_user.
    change (system_message app :: ?l ++ [?x])
      with ((system_message app :: l) ++ [x]).
    by rewrite last_snoc.
Qed.

Lemma upload_forwards_parse_error_witness :
  ∃ request reply displayed,
    handle_file_upload
      (Canned.lib (Raise (Exn "Error" (lit "Incorrect padding")))
         Canned.refused Canned.refused Canned.refused
         (Canned.reply_with (lit "The file could not be read.")))
      (Canned.app (Some (lit "claude")))
      (Some (lit "data:text/csv;base64,a")) (lit "a.csv") (Some [])
      Canned.world
    = (Ok (update (Some (lit "Error parsing file: Incorrect padding")),
           update displayed,
           update [user_message
                     (lit "[File uploaded: a.csv]" ++ nl ++ nl
                      ++ lit "Error parsing file: Incorrect padding");
                   assistant_message reply]),
       {| sent := [request]; reads := [] |}).
Proof.
  destruct (upload_forwards_parse_error
              (Canned.lib (Raise (Exn "Error" (lit "Incorrect padding")))
                 Canned.refused Canned.refused Canned.refused
                 (Canned.reply_with (lit "The file could not be read.")))
              (Canned.app (Some (lit "claude")))
              (lit "data:text/csv;base64,a") (lit "a.csv")
              (Exn "Error" (lit "Incorrect padding")) [] Canned.world)
    as (request & reply & displayed & Hu & _).
  - reflexivity.
  - constructor.
  - eapply fail_base64; reflexivity.
  - by exists request, reply, displayed.
Defined.

(** X11: the rendering loop of the callbacks is outside any [try].  When
    the stored conversation holds a dict without 'role' or 'content', a
    click on Send or an upload ends with a [KeyError] raised to Dash:
    nothing is returned for the stores and no request is sent. *)
Theorem callbacks_raise_on_malformed_history (L : Lib) (app : App)
    (n_clicks : Z) (message contents filename : str)
    (conversation : list message_dict) (w : World) :
  ¬ Forall well_formed conversation →
  has_visible_char message →
  (∃ e, send_message L app n_clicks (Some message) (Some conversation) w
        = (Raise e, w)
        ∧ exn_class e = "KeyError")
  ∧ (∃ e, handle_file_upload L app (Some contents) filename
            (Some conversation) w
          = (Raise e, w)
          ∧ exn_class e = "KeyError").
Proof.
  intros NF V.
  assert (∀ u a, ¬ Forall well_formed (append (append conversation u) a))
    as NF2.
  { intros u a F. unfold append in F.
    by apply Forall_app in F as [[F _]%Forall_app _]. }
  assert (∀ u, ¬ (truthy_opt (SERVING_ENDPOINT app) = true
                  ∧ Forall well_formed (append conversation u))) as NF1.
  { intros u [_ F]. unfold append in F. by apply Forall_app in F as [F _]. }
  split.
  - unfold send_message. cbn [from_option id].
    rewrite (strip_visible _ V).
    assert (truthy_opt (Some message) = true) as ->.
    { destruct message; [by apply Exists_nil in V|done]. }
    cbn [negb orb]. unfold bind.
    destruct (gateway_silent L app _ w (NF1 (user_message message)))
      as [text ->].
    destruct (for_in_bubbles_raise
                (append (append conversation (user_message message))
                   (assistant_message text)) [] w (NF2 _ _))
      as (e & -> & He).
    eauto.
  - unfold handle_file_upload.
    destruct (sampler_total L contents filename) as [preview ->].
    unfold bind, lift. cbn [from_option id].
    destruct (gateway_silent L app _ w
                (NF1 (user_message
                        (lit "[File uploaded: " ++ filename ++ lit "]"
                         ++ nl ++ nl ++ preview))))
      as [text ->].
    destruct (for_in_bubbles_raise
                (append
                   (append conversation
                      (user_message
                         (lit "[File uploaded: " ++ filename ++ lit "]"
                          ++ nl ++ nl ++ preview)))
                   (assistant_message text)) [] w (NF2 _ _))
      as (e & -> & He).
    eauto.
Qed.

Lemma callbacks_raise_on_malformed_history_witness :
  ∃ e, send_message (Canned.endpoint (Canned.reply_with (lit "ok")))
         (Canned.app (Some (lit "claude"))) 1 (Some (lit "hello"))
         (Some [ {[ "content" := VStr (lit "no role") ]} ]) Canned.world
       = (Raise e, Canned.world)
       ∧ exn_class e = "KeyError".
Proof.
  destruct (callbacks_raise_on_malformed_history
              (Canned.endpoint (Canned.reply_with (lit "ok")))
              (Canned.app (Some (lit "claude"))) 1 (lit "hello")
              (lit "data:,") (lit "a.txt")
              [ {[ "content" := VStr (lit "no role") ]} ] Canned.world)
    as [Hs _].
  - intros F. inversion F as [|m ms [[r Hr] _] _]; subst.
    vm_compute in Hr. discriminate Hr.
  - apply Exists_cons_hd. reflexivity.
  - exact Hs.
Defined.

(** X12: after a round trip the whole conversation is rendered again, one
    bubble per stored message in the same order.  The typed text becomes a
    plain-text user bubble (white space preserved), the reply a Markdown
    assistant bubble. *)
Theorem round_trip_display (L : Lib) (app : App) (n_clicks : Z)
    (message : str) (conversation : list message_dict) (w : World) :
  has_visible_char message →
  Forall well_formed conversation →
  ∃ reply displayed history w',
    send_message L app n_clicks (Some message) (Some conversation) w
    = (Ok (update displayed, update [], update history), w')
    ∧ length displayed = length history
    ∧ (∀ i m, history !! i = Some m →
         ∃ bubble, displayed !! i = Some bubble
           ∧ (m !! "role" = Some (VStr (lit "user")) →
              children bubble = Text (default VNone (m !! "content"))
              ∧ className bubble = lit "chat-message user")
           ∧ (m !! "role" ≠ Some (VStr (lit "user")) →
              children bubble = Markdown (default VNone (m !! "content"))
              ∧ className bubble = lit "chat-message assistant"))
    ∧ displayed !! length conversation
      = Some {| children := Text (VStr message);
                className := lit "chat-message user";
                style := [("whiteSpace", "pre-wrap")] |}
    ∧ displayed !! S (length conversation)
      = Some {| children := Markdown reply;
                className := lit "chat-message assistant";
                style := [] |}.
Proof.
  intros V F.
  destruct (send_message_round_trip L app n_clicks message conversation w V F)
    as (reply & w' & Hg & Hs).
  eexists reply, _, _, w'. split; [exact Hs|].
  split; [by rewrite length_map|]. split; [|split].
  - intros i m Hm. exists (bubble_of m).
    split; [by rewrite list_lookup_fmap, Hm|].
    unfold bubble_of. split.
    + intros ->. cbn [from_option id].
      by rewrite (bool_decide_eq_true_2 _ eq_refl).
    + intros Hne.
      assert (bool_decide (default VNone (m !! "role") = VStr (lit "user"))
              = false) as ->; [|done].
      apply bool_decide_eq_false_2. intros E. apply Hne.
      assert (In m (conversation ++ [user_message message;
                                     assistant_message reply])) as Hin
        by (apply list_elem_of_In; by eapply list_elem_of_lookup_2).
      assert (well_formed m) as [[r Hr] _].
      { apply in_app_or in Hin as [Hin|[<-|[<-|[]]]].
        - rewrite Forall_forall in F. apply F. by apply list_elem_of_In.
        - apply well_formed_user.
        - apply well_formed_assistant. }
      rewrite Hr in E |- *. cbn [from_option id] in E. by rewrite E.
  - rewrite list_lookup_fmap, lookup_app_r by done.
    rewrite Nat.sub_diag. cbn [lookup list_lookup fmap option_fmap option_map].
    by rewrite bubble_of_user.
  - rewrite list_lookup_fmap, lookup_app_r by lia.
    replace (S (length conversation) - length conversation) with 1 by lia.
    cbn [lookup list_lookup fmap option_fmap option_map].
    by rewrite bubble_of_assistant.
Qed.

Lemma round_trip_display_witness :
  ∃ displayed history w',
    send_message (Canned.endpoint (Canned.reply_with (lit "**Stations**")))
      (Canned.app (Some (lit "claude"))) 1 (Some (lit "Describe  it"))
      (Some Canned.two_messages) Canned.world
    = (Ok (update displayed, update [], update history), w')
    ∧ length displayed = 4
    ∧ displayed !! 2
      = Some {| children := Text (VStr (lit "Describe  it"));
                className := lit "chat-message user";
                style := [("whiteSpace", "pre-wrap")] |}.
Proof.
  destruct (round_trip_display
              (Canned.endpoint (Canned.reply_with (lit "**Stations**")))
              (Canned.app (Some (lit "claude"))) 1 (lit "Describe  it")
              Canned.two_messages Canned.world)
    as (reply & displayed & history & w' & Hs & Hl & _ & Hu & _).
  - apply Exists_cons_hd. reflexivity.
  - repeat constructor; apply well_formed_user || apply well_formed_assistant.
  - exists displayed, history, w'. split; [exact Hs|].
    split; [|exact Hu].
    rewrite Hl. injection Hs as _ <-. reflexivity.
Defined.

(** ** Sessions *)

Lemma handle_file_upload_unset (L : Lib) (app : App)
    (contents filename preview : str) (conversation : list message_dict)
    (w : World) :
  truthy_opt (SERVING_ENDPOINT app) = false →
  Forall well_formed conversation →
  parse_file_content L contents filename = Ok preview →
  let history :=
    conversation
    ++ [user_message (lit "[File uploaded: " ++ filename ++ lit "]"
                      ++ nl ++ nl ++ preview);
        assistant_message (VStr endpoint_unset_message)] in
  handle_file_upload L app (Some contents) filename (Some conversation) w
  = (Ok (update (Some preview), update (map bubble_of history),
         update history), w).
Proof.
  intros E F Hp history.
  unfold handle_file_upload. rewrite Hp. unfold bind, lift.
  cbn [from_option id].
  rewrite (gateway_unset L app _ w E).
  rewrite for_in_bubbles by by apply well_formed_snoc2.
  unfold append, history. by rewrite <- app_assoc.
Qed.

Section Sessions.

Context (L : Lib) (app : App).

Lemma strip_truthy_visible (m : str) :
  truthy (strip m) = true → has_visible_char m.
Proof.
  intros T. destruct (decide (Forall (λ c, isspace c = true) m)) as [B|NB].
  - by rewrite (strip_blank _ B) in T.
  - apply not_Forall_Exists in NB; [|apply _].
    eapply Exists_impl; [exact NB|]. intros c Hc. simpl in Hc.
    by destruct (isspace c).
Qed.

Lemma paired_well_formed conversation :
  paired conversation → Forall well_formed conversation.
Proof.
  intros [turns ->]. induction turns as [|[u a] turns IH]; [constructor|].
  simpl. constructor; [apply well_formed_user|].
  constructor; [apply well_formed_assistant|done].
Qed.

Lemma paired_snoc conversation u a :
  paired conversation →
  paired (conversation ++ [user_message u; assistant_message a]).
Proof.
  intros [turns ->]. exists (turns ++ [(u, a)]).
  rewrite map_app, concat_app. reflexivity.
Qed.

Lemma paired_length conversation :
  paired conversation → ∃ k, length conversation = 2 * k.
Proof.
  intros [turns ->]. exists (length turns).
  induction turns as [|[u a] turns IH]; [done|]. simpl in *. lia.
Qed.

(** What an event does to a session whose stored conversation is
    well-formed: it never raises, and it extends the conversation by one
    exchange exactly when it passes the guard of its callback. *)
Lemma fire_well_formed ev s w :
  Forall well_formed (conversation_history s) →
  ∃ s' w',
    fire L app ev s w = (Ok s', w')
    ∧ reads w' = reads w
    ∧ (if effective ev then
         (∃ u a, conversation_history s'
                 = conversation_history s
                   ++ [user_message u; assistant_message a])
         ∧ chat_messages s' = map bubble_of (conversation_history s')
         ∧ (if truthy_opt (SERVING_ENDPOINT app)
            then ∃ request, sent w' = sent w ++ [request]
            else sent w' = sent w)
       else
         conversation_history s' = conversation_history s
         ∧ chat_messages s' = chat_messages s
         ∧ sent w' = sent w).
Proof.
  intros F. destruct ev as [[contents|] filename|n typed]; simpl.
  - destruct (sampler_total L contents filename) as [preview Hp].
    unfold on_upload, bind at 1.
    destruct (truthy_opt (SERVING_ENDPOINT app)) eqn:E.
    + rewrite (handle_file_upload_configured L app _ _ _ _ w E F Hp).
      eexists _, _. split; [reflexivity|]. split; [done|].
      simpl. repeat split; eauto.
    + rewrite (handle_file_upload_unset L app _ _ _ _ w E F Hp).
      eexists _, _. split; [reflexivity|]. split; [done|].
      simpl. repeat split; eauto.
  - eexists _, _. split; [reflexivity|]. split; [done|].
    simpl. done.
  - unfold on_send, bind at 1.
    destruct (truthy_opt typed && truthy (strip (default [] typed))) eqn:G.
    + apply andb_true_iff in G as [G1 G2].
      destruct typed as [m|]; [|done]. cbn [from_option id] in G2.
      apply strip_truthy_visible in G2 as V.
      destruct (send_message_round_trip L app n m (conversation_history s)
                  w V F) as (reply & w' & Hg & ->).
      eexists _, _. split; [reflexivity|].
      pose proof (gateway_reads L app
                    (conversation_history s ++ [user_message m]) w) as Hr.
      rewrite Hg in Hr. split; [exact Hr|]. simpl.
      split; [eauto|]. split; [done|].
      destruct (truthy_opt (SERVING_ENDPOINT app)) eqn:E.
      * rewrite gateway_configured in Hg; [|done|].
        -- injection Hg as _ <-. simpl. eauto.
        -- apply Forall_app. split; [done|].
           constructor; [apply well_formed_user|constructor].
      * rewrite gateway_unset in Hg by done. by injection Hg as _ <-.
    + rewrite send_message_guard.
      * eexists _, _. split; [reflexivity|]. done.
      * destruct typed as [m|]; [|by left]. right. exists m.
        split; [done|]. simpl in G. cbn [from_option id] in G.
        destruct m as [|c m]; [constructor|]. simpl in G.
        apply strip_nil_iff. by destruct (strip (c :: m)).
Qed.

End Sessions.

Lemma run_paired (L : Lib) (app : App) (events : list event)
    (s : Session) (w : World) :
  paired (conversation_history s) →
  chat_messages s = map bubble_of (conversation_history s) →
  ∃ s' w',
    run L app events s w = (Ok s', w')
    ∧ paired (conversation_history s')
    ∧ chat_messages s' = map bubble_of (conversation_history s')
    ∧ conversation_history s `prefix_of` conversation_history s'
    ∧ length (conversation_history s')
      = length (conversation_history s)
        + 2 * length (List.filter effective events)
    ∧ reads w' = reads w
    ∧ sent w `prefix_of` sent w'
    ∧ length (sent w')
      = length (sent w)
        + (if truthy_opt (SERVING_ENDPOINT app)
           then length (List.filter effective events) else 0).
Proof.
  revert s w. induction events as [|ev events IH]; intros s w P D.
  - exists s, w. simpl. repeat split; try done; try lia.
    destruct (truthy_opt _); lia.
  - destruct (fire_well_formed L app ev s w (paired_well_formed _ P))
      as (s1 & w1 & Hf & Hr & Hev).
    assert (paired (conversation_history s1)
            ∧ chat_messages s1 = map bubble_of (conversation_history s1)
            ∧ conversation_history s `prefix_of` conversation_history s1
            ∧ length (conversation_history s1)
              = length (conversation_history s)
                + 2 * (if effective ev then 1 else 0)
            ∧ sent w `prefix_of` sent w1
            ∧ length (sent w1)
              = length (sent w)
                + (if truthy_opt (SERVING_ENDPOINT app)
                   then (if effective ev then 1 else 0) else 0))
      as (P1 & D1 & X1 & L1 & S1 & N1).
    { destruct (effective ev).
      - destruct Hev as ((u & a & Hh) & Hd & Hs).
        rewrite Hh. split; [by apply paired_snoc|].
        split; [by rewrite Hd, Hh|]. split; [by apply prefix_app_r|].
        split; [rewrite length_app; simpl; lia|].
        destruct (truthy_opt (SERVING_ENDPOINT app)).
        + destruct Hs as [request ->].
          split; [by apply prefix_app_r|]. rewrite length_app. simpl. lia.
        + rewrite Hs. split; [done|lia].
      - destruct Hev as (Hh & Hd & Hs). rewrite Hh, Hd, Hs.
        repeat split; try done; try lia.
        destruct (truthy_opt _); lia. }
    destruct (IH s1 w1 P1 D1)
      as (s' & w' & Hrun & P' & D' & X' & L' & R' & S' & N').
    exists s', w'. simpl. unfold bind. rewrite Hf.
    split; [exact Hrun|]. split; [done|]. split; [done|].
    split; [by etrans|].
    split; [destruct (effective ev); simpl; lia|].
    split; [congruence|]. split; [by etrans|].
    destruct (truthy_opt (SERVING_ENDPOINT app));
      destruct (effective ev); simpl; lia.
Qed.

(** X13: in a session that starts from the empty store, whatever the
    user drops or types, no callback raises; the stored conversation is
    always a sequence of exchanges (a user message followed by the
    assistant's reply), two entries per event that passed its guard; the
    display shows one bubble per stored message; earlier requests stay in
    the log and exactly one request is sent per such event when the
    endpoint is configured, none otherwise; no file is read. *)
Theorem session_keeps_exchanges (L : Lib) (app : App)
    (events : list event) (w : World) :
  ∃ s' w',
    run L app events initial_session w = (Ok s', w')
    ∧ paired (conversation_history s')
    ∧ length (conversation_history s')
      = 2 * length (List.filter effective events)
    ∧ chat_messages s' = map bubble_of (conversation_history s')
    ∧ reads w' = reads w
    ∧ sent w `prefix_of` sent w'
    ∧ length (sent w')
      = length (sent w)
        + (if truthy_opt (SERVING_ENDPOINT app)
           then length (List.filter effective events) else 0).
Proof.
  destruct (run_paired L app events initial_session w)
    as (s' & w' & Hrun & P & D & _ & Hl & R & S & N).
  - by exists [].
  - reflexivity.
  - exists s', w'. simpl in Hl. by repeat split.
Qed.

(** X14: the history is sent again in full on every turn.  Of two
    messages sent one after the other, the second request repeats the
    messages of the first and adds the reply to the first message, as an
    ASSISTANT message, and the new text, as the last USER message. *)
Theorem successive_requests_extend (L : Lib) (app : App) (n1 n2 : Z)
    (m1 m2 : str) (s : Session) (w : World) :
  truthy_opt (SERVING_ENDPOINT app) = true →
  Forall well_formed (conversation_history s) →
  has_visible_char m1 →
  has_visible_char m2 →
  ∃ request1 request2 reply1 reply2 s',
    run L app [SendClicked n1 (Some m1); SendClicked n2 (Some m2)] s w
    = (Ok s', {| sent := sent w ++ [request1; request2];
                 reads := reads w |})
    ∧ req_messages request1
      = {| cm_role := SYSTEM; cm_content := VStr (SYSTEM_PROMPT app) |}
        :: map chat_message_of (conversation_history s)
        ++ [ {| cm_role := USER; cm_content := VStr m1 |} ]
    ∧ req_messages request2
      = req_messages request1
        ++ [ {| cm_role := ASSISTANT; cm_content := reply1 |};
             {| cm_role := USER; cm_content := VStr m2 |} ]
    ∧ conversation_history s'
      = conversation_history s
        ++ [user_message m1; assistant_message reply1;
            user_message m2; assistant_message reply2].
Proof.
  intros E F V1 V2.
  set (request1 := gateway_request app
                     (conversation_history s ++ [user_message m1])).
  set (reply1 := reply_text (serving_query L (sent w) request1)).
  set (history1 := conversation_history s
                   ++ [user_message m1; assistant_message reply1]).
  assert (Forall well_formed history1) as F1.
  { apply Forall_app. split; [done|].
    constructor; [apply well_formed_user|].
    constructor; [apply well_formed_assistant|constructor]. }
  set (request2 := gateway_request app (history1 ++ [user_message m2])).
  set (reply2 := reply_text (serving_query L (sent w ++ [request1])
                               request2)).
  exists request1, request2, reply1, reply2.
  eexists. split; [|split; [|split]].
  - cbn [run fire]. unfold bind at 1. unfold on_send at 1, bind at 1.
    rewrite (send_message_configured L app n1 m1 _ w E V1 F).
    fold request1 reply1 history1. cbn [ret snd fst apply_output].
    unfold bind at 1, on_send, bind at 1.
    cbn [conversation_history].
    rewrite (send_message_configured L app n2 m2 history1 _ E V2 F1).
    cbn [sent reads]. fold request2 reply2. cbn [ret snd fst apply_output].
    rewrite <- app_assoc. reflexivity.
  - unfold request1, gateway_request, system_message. cbn [req_messages].
    by rewrite map_app, <- chat_message_of_user.
  - unfold request2, request1, gateway_request, history1.
    cbn [req_messages].
    rewrite !map_app. cbn [map].
    rewrite !chat_message_of_user, chat_message_of_assistant.
    rewrite <- ?app_comm_cons, <- ?app_assoc. reflexivity.
  - cbn [conversation_history]. unfold history1.
    by rewrite <- app_assoc.
Qed.

Lemma successive_requests_extend_witness :
  ∃ request1 request2 reply1 s',
    run (Canned.endpoint (Canned.reply_with (lit "A table.")))
      (Canned.app (Some (lit "claude")))
      [SendClicked 1 (Some (lit "What is it?"));
       SendClicked 2 (Some (lit "How many rows?"))]
      initial_session Canned.world
    = (Ok s', {| sent := [request1; request2]; reads := [] |})
    ∧ req_messages request2
      = req_messages request1
        ++ [ {| cm_role := ASSISTANT; cm_content := reply1 |};
             {| cm_role := USER; cm_content := VStr (lit "How many rows?") |} ].
Proof.
  destruct (successive_requests_extend
              (Canned.endpoint (Canned.reply_with (lit "A table.")))
              (Canned.app (Some (lit "claude"))) 1 2
              (lit "What is it?") (lit "How many rows?")
              initial_session Canned.world)
    as (request1 & request2 & reply1 & reply2 & s' & Hrun & H1 & H2 & _).
  - reflexivity.
  - constructor.
  - apply Exists_cons_hd. reflexivity.
  - apply Exists_cons_hd. reflexivity.
  - exists request1, request2, reply1, s'. split; [exact Hrun|exact H2].
Defined.

(** ** Start-up and the configuration it leaves *)

Section StripFacts.

Implicit Types s t : str.

Lemma lstrip_suffix s : ∃ p, s = p ++ lstrip s.
Proof.
  induction s as [|c s [p IH]]; [by exists []|]. simpl.
  destruct (isspace c).
  - exists (c :: p). simpl. by rewrite <- IH.
  - by exists [].
Qed.

Lemma lstrip_first s c : lstrip s !! 0 = Some c → isspace c = false.
Proof.
  induction s as [|x s IH]; simpl; [done|].
  destruct (isspace x) eqn:E; [done|]. simpl. by intros [= <-].
Qed.

Lemma rstrip_prefix t : ∃ q, t = rstrip t ++ q.
Proof.
  unfold rstrip. destruct (lstrip_suffix (rev t)) as [p Hp].
  exists (rev p). apply (f_equal (@rev N)) in Hp.
  by rewrite rev_involutive, rev_app_distr in Hp.
Qed.

Lemma rstrip_last t c : last (rstrip t) = Some c → isspace c = false.
Proof.
  unfold rstrip.
  destruct (lstrip (rev t)) as [|x l] eqn:E; [done|].
  simpl. rewrite last_snoc. intros [= <-].
  apply (lstrip_first (rev t)). by rewrite E.
Qed.

(** [s.strip()] neither starts nor ends with white space. *)
Lemma strip_ends s c :
  strip s !! 0 = Some c ∨ last (strip s) = Some c → isspace c = false.
Proof.
  unfold strip. intros [Hf|Hl]; [|by eapply rstrip_last].
  destruct (rstrip_prefix (lstrip s)) as [q Hq].
  apply (lstrip_first s). rewrite Hq.
  by apply lookup_app_l_Some.
Qed.

(** Newline translation keeps a text of white space white. *)
Lemma universal_newlines_blank s :
  Forall (λ c, isspace c = true) s →
  Forall (λ c, isspace c = true) (universal_newlines s).
Proof.
  assert (∀ n s, length s ≤ n →
            Forall (λ c, isspace c = true) s →
            Forall (λ c, isspace c = true) (universal_newlines s)) as Hn.
  { clear s. induction n as [|n IH]; intros [|c s] Hl F; simpl in *;
      try done; try lia.
    inversion F as [|? ? Hc Fs]; subst.
    destruct (N.eqb c 13).
    - constructor; [done|]. destruct s as [|d s]; [done|].
      inversion Fs; subst. simpl in Hl.
      destruct (N.eqb d 10); apply IH; simpl; try done; lia.
    - constructor; [done|]. apply IH; [lia|done]. }
  by apply (Hn (length s)).
Qed.

End StripFacts.

(** What a successful start-up has done. *)
Lemma startup_ok_inv (L : Lib) (H : Host) (w : World) (app : App)
    (w' : World) :
  startup L H w = (Ok app, w') →
  ∃ b text,
    files H !! prompt_path H = Some b
    ∧ decode_utf8 L b = Ok text
    ∧ SYSTEM_PROMPT app = strip (universal_newlines text)
    ∧ SERVING_ENDPOINT app = environ H !! "DATABRICKS_SERVING_ENDPOINT".
Proof.
  intros Hs. unfold startup, bind, lift in Hs.
  destruct (if truthy_opt _ && truthy_opt _ then _ else _) as [[]|e];
    [|discriminate Hs].
  destruct (files H !! prompt_path H) as [b|] eqn:E.
  - rewrite (load_present L H w b E) in Hs.
    destruct (decode_utf8 L b) as [text|e] eqn:Hd; [|discriminate Hs].
    exists b, text. unfold ret in Hs. by simplify_eq.
  - rewrite (load_missing L H w E) in Hs. discriminate Hs.
Qed.

(** X15: the endpoint name is read from the environment once, at
    start-up, and a missing or empty DATABRICKS_SERVING_ENDPOINT does not
    stop the process.  The started application then answers every
    conversation with the configuration message and sends nothing; with
    a name in the environment, every request it sends carries that
    name. *)
Theorem startup_fixes_endpoint (L : Lib) (H : Host) (w : World) (app : App)
    (w' : World) :
  startup L H w = (Ok app, w') →
  (truthy_opt (environ H !! "DATABRICKS_SERVING_ENDPOINT") = false →
   ∀ conversation w0,
     call_databricks_model L app conversation w0
     = (Ok (VStr endpoint_unset_message), w0))
  ∧ (∀ name, environ H !! "DATABRICKS_SERVING_ENDPOINT" = Some name →
       name ≠ [] →
       ∀ conversation w0, Forall well_formed conversation →
         ∃ request,
           sent (snd (call_databricks_model L app conversation w0))
           = sent w0 ++ [request]
           ∧ req_name request = name).
Proof.
  intros Hs. destruct (startup_ok_inv L H w app w' Hs)
    as (b & text & _ & _ & _ & He).
  split.
  - intros E conversation w0. apply gateway_unset. by rewrite He.
  - intros name Hn Hne conversation w0 F.
    assert (truthy_opt (SERVING_ENDPOINT app) = true) as E.
    { rewrite He, Hn. by destruct name. }
    exists (gateway_request app conversation).
    rewrite gateway_configured by done. split; [done|].
    unfold gateway_request. cbn [req_name]. by rewrite He, Hn.
Qed.

Lemma startup_fixes_endpoint_witness :
  ∃ app w',
    startup (Canned.lib Canned.refused (Ok (lit " hi" ++ nl))
               Canned.refused Canned.refused Canned.refused)
      (Canned.host (Some [x20; x68; x69; x0a]%byte)) Canned.world
    = (Ok app, w')
    ∧ ∀ conversation w0, Forall well_formed conversation →
        ∃ request,
          sent (snd (call_databricks_model
                       (Canned.lib Canned.refused (Ok (lit " hi" ++ nl))
                          Canned.refused Canned.refused Canned.refused)
                       app conversation w0))
          = sent w0 ++ [request]
          ∧ req_name request = lit "claude".
Proof.
  eexists _, _. split; [reflexivity|].
  intros conversation w0 F.
  eapply (startup_fixes_endpoint
            (Canned.lib Canned.refused (Ok (lit " hi" ++ nl))
               Canned.refused Canned.refused Canned.refused)
            (Canned.host (Some [x20; x68; x69; x0a]%byte)) Canned.world);
    [reflexivity|reflexivity|discriminate|exact F].
Defined.

(** X16: the system prompt is the text of the file without the white
    space around it: after a successful start-up it neither starts nor
    ends with a white-space character, and a file of white space only
    gives the empty prompt. *)
Theorem system_prompt_is_stripped (L : Lib) (H : Host) (w : World)
    (app : App) (w' : World) :
  startup L H w = (Ok app, w') →
  (∀ c, SYSTEM_PROMPT app !! 0 = Some c ∨ last (SYSTEM_PROMPT app) = Some c →
        isspace c = false)
  ∧ (∀ b text, files H !! prompt_path H = Some b →
       decode_utf8 L b = Ok text →
       Forall (λ c, isspace c = true) text →
       SYSTEM_PROMPT app = []).
Proof.
  intros Hs. destruct (startup_ok_inv L H w app w' Hs)
    as (b & text & Hb & Hd & Hp & _).
  split.
  - intros c Hc. rewrite Hp in Hc. by eapply strip_ends.
  - intros b' text' Hb' Hd' Hblank. rewrite Hb in Hb'. simplify_eq.
    rewrite Hd in Hd'. simplify_eq. rewrite Hp.
    by apply strip_nil_iff, universal_newlines_blank.
Qed.

Lemma system_prompt_is_stripped_witness :
  ∃ app w',
    startup (Canned.lib Canned.refused (Ok (lit " hi" ++ nl))
               Canned.refused Canned.refused Canned.refused)
      (Canned.host (Some [x20; x68; x69; x0a]%byte)) Canned.world
    = (Ok app, w')
    ∧ ∀ c, SYSTEM_PROMPT app !! 0 = Some c ∨ last (SYSTEM_PROMPT app) = Some c →
           isspace c = false.
Proof.
  eexists _, _. split; [reflexivity|].
  eapply (system_prompt_is_stripped
            (Canned.lib Canned.refused (Ok (lit " hi" ++ nl))
               Canned.refused Canned.refused Canned.refused)
            (Canned.host (Some [x20; x68; x69; x0a]%byte)) Canned.world).
  reflexivity.
Defined.

(** ** Failures that become part of the conversation *)

(** X17: when the remote call fails, the click on Send still completes:
    the request is in the log, and "Error calling model: <message>" is
    stored as the assistant's reply, so that the next request carries it
    to the endpoint as an ASSISTANT message. *)
Theorem remote_failure_is_stored (L : Lib) (app : App) (n_clicks : Z)
    (message : str) (conversation : list message_dict) (w : World)
    (e : exn) :
  truthy_opt (SERVING_ENDPOINT app) = true →
  has_visible_char message →
  Forall well_formed conversation →
  serving_query L (sent w)
    (gateway_request app (conversation ++ [user_message message]))
  = Raise e →
  let failure := VStr (lit "Error calling model: " ++ exn_str e) in
  let history :=
    conversation ++ [user_message message; assistant_message failure] in
  ∃ displayed request,
    send_message L app n_clicks (Some message) (Some conversation) w
    = (Ok (update displayed, update [], update history),
       {| sent := sent w ++ [request]; reads := reads w |})
    ∧ ∀ next, req_messages (gateway_request app (history ++ [next]))
              !! S (S (length conversation))
              = Some {| cm_role := ASSISTANT; cm_content := failure |}.
Proof.
  intros E V F Hq failure history. eexists _, _. split.
  - rewrite (send_message_configured L app n_clicks message _ w E V F).
    cbv zeta. rewrite Hq. reflexivity.
  - intros next.
    change (req_messages (gateway_request app ?x) !! S ?i)
      with (map chat_message_of x !! i).
    rewrite list_lookup_fmap. unfold history.
    rewrite lookup_app_l by (rewrite length_app; simpl; lia).
    rewrite lookup_app_r by lia.
    replace (S (length conversation) - length conversation) with 1 by lia.
    cbn [lookup list_lookup fmap option_fmap option_map].
    by rewrite chat_message_of_assistant.
Qed.

Lemma remote_failure_is_stored_witness :
  ∃ displayed request,
    send_message
      (Canned.endpoint (Raise (Exn "PermissionDenied" (lit "invalid token"))))
      (Canned.app (Some (lit "claude"))) 1 (Some (lit "hello")) (Some [])
      Canned.world
    = (Ok (update displayed, update [],
           update [user_message (lit "hello");
                   assistant_message
                     (VStr (lit "Error calling model: invalid token"))]),
       {| sent := [request]; reads := [] |}).
Proof.
  destruct (remote_failure_is_stored
              (Canned.endpoint
                 (Raise (Exn "PermissionDenied" (lit "invalid token"))))
              (Canned.app (Some (lit "claude"))) 1 (lit "hello") []
              Canned.world (Exn "PermissionDenied" (lit "invalid token")))
    as (displayed & request & Hs & _).
  - reflexivity.
  - apply Exists_cons_hd. reflexivity.
  - constructor.
  - reflexivity.
  - by exists displayed, request.
Defined.

(** X18: a table of at most 10 rows is rendered whole: the frame handed
    to [to_string] is the parsed frame itself. *)
Theorem small_table_whole (L : Lib)
    (contents filename content_type content_string : str)
    (decoded : bytes) (df : DataFrame) :
  split 44 contents = [content_type; content_string] →
  b64decode L content_string = Ok decoded →
  (endswith filename (lit ".csv") = true
   ∧ ∃ text, decode_utf8 L decoded = Ok text ∧ read_csv L text = Ok df)
  ∨ (endswith_any filename [lit ".xlsx"; lit ".xls"] = true
     ∧ read_excel L decoded = Ok df) →
  length (df_rows df) ≤ 10 →
  parse_file_content L contents filename
  = Ok (preview_header filename (lit "Sample data (first 10 rows):")
        ++ to_string L df).
Proof.
  intros Hs Hb Hcase Hrows.
  assert (head 10 df = df) as Hhead.
  { destruct df as [columns rows]. unfold head. simpl in *.
    by rewrite take_ge. }
  apply sampler_passes. rewrite (sampler_decoded L _ _ _ _ _ Hs Hb).
  unfold preview_header. rewrite <- !app_assoc.
  destruct Hcase as [[Hc (text & Hd & Hp)]|[Hx Hp]].
  - rewrite Hc. simpl. rewrite Hd. simpl. rewrite Hp. simpl.
    by rewrite Hhead.
  - rewrite (excel_not_csv _ Hx), Hx. simpl. rewrite Hp. simpl.
    by rewrite Hhead.
Qed.

Lemma small_table_whole_witness :
  parse_file_content
    (Canned.upload (Ok []) Canned.refused
       (Ok {| df_columns := [lit "id"];
              df_rows := [ {| row_label := CInt 0;
                              row_values := [CStr (lit "Bank")] |} ] |})
       Canned.refused)
    (lit "data:application/vnd.ms-excel;base64,AA==") (lit "stations.xls")
  = Ok (preview_header (lit "stations.xls")
          (lit "Sample data (first 10 rows):") ++ lit "<table>").
Proof.
  apply (small_table_whole
           (Canned.upload (Ok []) Canned.refused
              (Ok {| df_columns := [lit "id"];
                     df_rows := [ {| row_label := CInt 0;
                                     row_values := [CStr (lit "Bank")] |} ] |})
              Canned.refused)
           (lit "data:application/vnd.ms-excel;base64,AA==")
           (lit "stations.xls")
           (lit "data:application/vnd.ms-excel;base64") (lit "AA==") []
           {| df_columns := [lit "id"];
              df_rows := [ {| row_label := CInt 0;
                              row_values := [CStr (lit "Bank")] |} ] |}
           eq_refl eq_refl).
  - right. split; reflexivity.
  - simpl. lia.
Defined.
